(** * Pass issuance and ticket booking: a model of [server.js]

    The Express handlers of [server.js] are embedded as functions over an
    explicit server state (the two MongoDB collection handles), a
    per-request environment (the random draw, the clock, the identifier the
    driver assigns on insert, a pending store rejection) and the parts of
    the JavaScript runtime and of the libraries the handlers call
    ([Number] on strings and objects, [new ObjectId], [QRCode.toDataURL]).

    JavaScript numbers are IEEE 754 binary64 values: they are modelled by
    [spec_float] with the operations of [SpecFloat] at precision 53.

    A collection is the list of its documents in insertion order, which is
    the order [findOne] searches; a document is the JavaScript object handed
    to [insertOne], with the [_id] the driver adds.  How the store writes a
    document down (a member that is [undefined] is kept as [null], [_id]
    comes first) is not part of the model: what is proved of a record read
    back speaks of the record as a whole, or of members that read the same
    either way ([_id], [passId], [qrCode], a phone field that is a string,
    a phone field that is empty).  [req.body] is the object the body
    parsers leave, a missing member reading as [undefined].

    [Number(v)] and [new ObjectId(v)] may throw, and the handlers meet the
    errors in the order in which JavaScript evaluates the calls.

    The file gives the model first, then the notions the specification
    speaks of, then the lemmas on rounding, printing and the handlers, and
    last the properties C1 to C10 with the requests that witness them. *)

From Stdlib Require Import ZArith NArith List String Ascii Bool Lia SpecFloat.
Import ListNotations.
Local Open Scope string_scope.
Local Open Scope list_scope.
Set Warnings "-register-all".

(** ** JavaScript values *)

Module Js.

Definition number := spec_float.

Definition prec : Z := 53.
Definition emax : Z := 1024.

Definition fmul : number -> number -> number := SFmul prec emax.
Definition fadd : number -> number -> number := SFadd prec emax.

(** The double nearest to an integer (exact below 2^53). *)
Definition of_Z (n : Z) : number := binary_normalize prec emax n 0 false.

Definition NaN : number := S754_nan.
Definition pzero : number := S754_zero false.

(** A MongoDB ObjectId is a 96-bit value. *)
Definition ObjectId := N.

Inductive Value : Type :=
| JUndefined
| JNull
| JBool (b : bool)
| JNumber (x : number)
| JString (s : string)
| JDate (t : Z)
| JObjectId (o : ObjectId)
| JArray (l : list Value)
| JObject (fields : list (string * Value)).

Definition Obj := list (string * Value).

(** Property read [o.k]: [undefined] when the key is absent. *)
Fixpoint get (o : Obj) (k : string) : Value :=
  match o with
  | [] => JUndefined
  | (k', v) :: o' => if String.eqb k' k then v else get o' k
  end.

(** ToBoolean. *)
Definition truthy (v : Value) : bool :=
  match v with
  | JUndefined | JNull => false
  | JBool b => b
  | JNumber (S754_zero _) | JNumber S754_nan => false
  | JNumber _ => true
  | JString s => negb (String.eqb s "")
  | JDate _ | JObjectId _ | JArray _ | JObject _ => true
  end.

(** [a || b] *)
Definition js_or (a b : Value) : Value := if truthy a then a else b.

(** [v === "s"] for a string literal. *)
Definition strict_eq_string (v : Value) (s : string) : bool :=
  match v with
  | JString s' => String.eqb s' s
  | _ => false
  end.

(** The parts of the runtime and of the libraries that the handlers call
    and that are not code of this repository. *)
Record Runtime := {
  (** StringToNumber of ECMAScript: [Number(s)] for a string. *)
  StringToNumber : string -> number;
  (** [Number(v)] for an object (ToPrimitive, then ToNumber): [inr msg]
      when the conversion to a primitive throws a TypeError. *)
  ObjectToNumber : Value -> number + string;
  (** Number::toString for a number that is not an integer below 10^21. *)
  FractionToString : number -> string;
  (** [new ObjectId(v)] of the driver: [inr msg] when it throws. *)
  ObjectId_new : Value -> ObjectId + string;
  (** [QRCode.toDataURL(s)]: [inr msg] when the promise rejects. *)
  QRCode_toDataURL : string -> string + string
}.

(** [Number(v)]: [inr msg] when it throws. *)
Definition Number (rt : Runtime) (v : Value) : number + string :=
  match v with
  | JUndefined => inl NaN
  | JNull => inl pzero
  | JBool true => inl (of_Z 1)
  | JBool false => inl pzero
  | JNumber x => inl x
  | JString s => inl (StringToNumber rt s)
  | JDate _ | JObjectId _ | JArray _ | JObject _ => ObjectToNumber rt v
  end.

(** The values that are no objects. *)
Definition primitive (v : Value) : bool :=
  match v with
  | JUndefined | JNull | JBool _ | JNumber _ | JString _ => true
  | JDate _ | JObjectId _ | JArray _ | JObject _ => false
  end.

(** [Math.floor] *)
Definition Math_floor (x : number) : number :=
  match x with
  | S754_finite s m e =>
      if (0 <=? e)%Z then x
      else binary_normalize prec emax
             (Z.shiftr (cond_Zopp s (Zpos m)) (- e)) 0 s
  | _ => x
  end.

(** Decimal digits of a natural number, most significant first. *)
Definition digit_char (d : N) : ascii :=
  ascii_of_N (48 + d).

Fixpoint digits_from (fuel : nat) (n : N) (acc : string) : string :=
  match fuel with
  | O => acc
  | S fuel' =>
      let acc' := String (digit_char (n mod 10)) acc in
      if (n / 10 =? 0)%N then acc' else digits_from fuel' (n / 10) acc'
  end.

Definition decimal (n : N) : string :=
  digits_from (S (N.to_nat (N.log2 n))) n "".

(** The integer a finite number denotes, when it denotes one. *)
Definition integer_value (x : number) : option Z :=
  match x with
  | S754_zero _ => Some 0%Z
  | S754_finite s m e =>
      if (0 <=? e)%Z then Some (cond_Zopp s (Zpos m * 2 ^ e))%Z
      else if (Zpos m mod 2 ^ (- e) =? 0)%Z
           then Some (cond_Zopp s (Zpos m / 2 ^ (- e)))%Z
           else None
  | _ => None
  end.

(** Number::toString(x) in radix 10, as a template literal applies it. An
    integer of magnitude below 10^21 prints as its decimal digits. *)
Definition NumberToString (rt : Runtime) (x : number) : string :=
  match x with
  | S754_nan => "NaN"
  | S754_zero _ => "0"
  | S754_infinity s => if s then "-Infinity" else "Infinity"
  | S754_finite _ _ _ =>
      match integer_value x with
      | Some n =>
          if (Z.abs n <? 10 ^ 21)%Z
          then String.append (if (n <? 0)%Z then "-" else "")
                             (decimal (Z.to_N (Z.abs n)))
          else FractionToString rt x
      | None => FractionToString rt x
      end
  end.

(** The number a string of decimal digits spells. *)
Fixpoint numeral_from (s : string) (acc : N) : option N :=
  match s with
  | EmptyString => Some acc
  | String c s' =>
      let n := N_of_ascii c in
      if ((48 <=? n) && (n <=? 57))%N
      then numeral_from s' (10 * acc + (n - 48))%N
      else None
  end.

Definition numeral (s : string) : option N :=
  match s with
  | EmptyString => None
  | _ => numeral_from s 0
  end.

(** Every character is a decimal digit. *)
Fixpoint all_digits (s : string) : bool :=
  match s with
  | EmptyString => true
  | String c s' =>
      ((48 <=? N_of_ascii c) && (N_of_ascii c <=? 57))%N && all_digits s'
  end.

(** What [Math.random()] may return: a double of positive sign, at least 0
    and less than 1. *)
Definition unit_interval (r : number) : bool :=
  match r with
  | S754_zero false => true
  | S754_finite false m e => bounded prec emax m e && SFltb r (of_Z 1)
  | _ => false
  end.

(** The value of a non-negative number counted in units of [2^u], when it
    is a whole number of them. *)
Definition units (u : Z) (x : number) : option Z :=
  match x with
  | S754_zero _ => Some 0%Z
  | S754_finite false m e =>
      if (u <=? e)%Z then Some (Zpos m * 2 ^ (e - u))%Z else None
  | _ => None
  end.

End Js.

Import Js.

(** ** Server state, requests and responses *)

Definition Doc := Obj.
Definition Collection := list Doc.

(** [let applications, tickets;] -- [None] until [connectDB] succeeds. *)
Record Server := {
  applications : option Collection;
  tickets : option Collection
}.

(** What the outside supplies to one request. *)
Record Env := {
  (** the value of [Math.random()] *)
  random : number;
  (** the value of [new Date()] *)
  now : Z;
  (** the [_id] the driver gives the inserted document *)
  fresh_id : ObjectId;
  (** [Some msg] when the awaited store call rejects with [msg] *)
  store_error : option string
}.

(** A file as multer stores it; [req.files.<field>] is a non-empty array. *)
Record Upload := { first_filename : string; more_files : list string }.

Record Request := {
  body : Obj;
  files : option (list (string * Upload))
}.

Record Response := { status : nat; json : Value }.

(** ** Control: exceptions and the store *)

Inductive Exc (A : Type) : Type :=
| Ret (a : A)
| Throw (msg : string).
Arguments Ret {A} a.
Arguments Throw {A} msg.

Definition M (A : Type) : Type := Server -> Exc A * Server.

Definition ret {A} (a : A) : M A := fun st => (Ret a, st).
Definition throw {A} (msg : string) : M A := fun st => (Throw msg, st).
Definition bind {A B} (c : M A) (k : A -> M B) : M B :=
  fun st =>
    match c st with
    | (Ret a, st') => k a st'
    | (Throw msg, st') => (Throw msg, st')
    end.
Definition lift {A} (r : A + string) : M A :=
  match r with
  | inl a => ret a
  | inr msg => throw msg
  end.

Notation "x <- c ;; k" := (bind c (fun x => k))
  (at level 61, c at next level, right associativity).

(** [try { ... } catch (err) { return handler(err.message) }] *)
Definition try_catch (c : M Response) (handler : string -> Response)
  : Server -> Response * Server :=
  fun st =>
    match c st with
    | (Ret r, st') => (r, st')
    | (Throw msg, st') => (handler msg, st')
    end.

(** The message of the TypeError raised by the call of a method on
    [undefined]. *)
Definition undefined_method (name : string) : string :=
  ("Cannot read properties of undefined (reading '" ++ name ++ "')")%string.

(** [coll.insertOne(doc)]: the driver adds [_id] to [doc], appends it to the
    collection and returns the [insertedId]. *)
Definition with_id (doc : Doc) (id : ObjectId) : Doc :=
  doc ++ [("_id", JObjectId id)].

Definition applications_insertOne (env : Env) (doc : Doc) : M ObjectId :=
  fun st =>
    match applications st with
    | None => (Throw (undefined_method "insertOne"), st)
    | Some coll =>
        match store_error env with
        | Some msg => (Throw msg, st)
        | None =>
            (Ret (fresh_id env),
             {| applications := Some (coll ++ [with_id doc (fresh_id env)]);
                tickets := tickets st |})
        end
    end.

Definition tickets_insertOne (env : Env) (doc : Doc) : M ObjectId :=
  fun st =>
    match tickets st with
    | None => (Throw (undefined_method "insertOne"), st)
    | Some coll =>
        match store_error env with
        | Some msg => (Throw msg, st)
        | None =>
            (Ret (fresh_id env),
             {| applications := applications st;
                tickets := Some (coll ++ [with_id doc (fresh_id env)]) |})
        end
    end.

(** An equality condition [{k: s}] of a query, for a string [s]: the field
    is that string, or an array that contains it. *)
Definition is_string (s : string) (v : Value) : bool :=
  match v with
  | JString s' => String.eqb s' s
  | _ => false
  end.

Definition field_is (k : string) (s : string) (d : Doc) : bool :=
  match get d k with
  | JArray l => existsb (is_string s) l
  | v => is_string s v
  end.

(** The condition [{ _id: o }] of a query. *)
Definition id_is (o : ObjectId) (d : Doc) : bool :=
  match get d "_id" with
  | JObjectId o' => N.eqb o' o
  | _ => false
  end.

(** [applications.findOne(query)]: the first match in insertion order,
    [null] when there is none. *)
Definition applications_findOne (env : Env) (query : Doc -> bool)
  : M (option Doc) :=
  fun st =>
    match applications st with
    | None => (Throw (undefined_method "findOne"), st)
    | Some coll =>
        match store_error env with
        | Some msg => (Throw msg, st)
        | None => (Ret (find query coll), st)
        end
    end.

(** ** The handlers *)

Section Handlers.

Context (rt : Runtime).

(** [generateUniquePassId] *)
Definition generateUniquePassId (env : Env) : string :=
  let randomNum :=
    Math_floor (fadd (of_Z 10000000) (fmul (random env) (of_Z 90000000))) in
  ("TSRTC-" ++ NumberToString rt randomNum)%string.

Fixpoint upload_of (fs : list (string * Upload)) (field : string)
  : option Upload :=
  match fs with
  | [] => None
  | (k, u) :: fs' => if String.eqb k field then Some u else upload_of fs' field
  end.

(** [req.files?.f ? `/uploads/${req.files.f[0].filename}` : ""] *)
Definition upload_path (req : Request) (field : string) : Value :=
  match files req with
  | None => JString ""
  | Some fs =>
      match upload_of fs field with
      | None => JString ""
      | Some u => JString ("/uploads/" ++ first_filename u)%string
      end
  end.

(** [const phoneNumber = req.body.phone || req.body.whatsapp || req.body.number] *)
Definition phoneNumber (b : Obj) : Value :=
  js_or (js_or (get b "phone") (get b "whatsapp")) (get b "number").

(** The document [doc] that [/apply] assembles. *)
Definition application_doc (env : Env) (req : Request)
  (passId qrDataUrl : string) : Doc :=
  let b := body req in
  [ ("passId", JString passId);
    ("qrCode", JString qrDataUrl);
    ("name", get b "name");
    ("fatherName", get b "fatherName");
    ("dob", get b "dob");
    ("gender", get b "gender");
    ("age", JObject [ ("years", get b "ageYears");
                      ("months", get b "ageMonths");
                      ("days", get b "ageDays") ]);
    ("aadhar", get b "aadhar");
    ("phone", phoneNumber b);
    ("whatsapp", js_or (get b "whatsapp") (phoneNumber b));
    ("number", js_or (get b "number") (phoneNumber b));
    ("email", get b "email");
    ("photo", upload_path req "photo");
    ("aadharFile", upload_path req "aadharFile");
    ("address", get b "address");
    ("district", get b "district");
    ("mandal", get b "mandal");
    ("village", get b "village");
    ("pincode", get b "pincode");
    ("city", get b "city");
    ("passType", get b "passType");
    ("paymentMode", JString "FREE SCHEME");
    ("deliveryMode", JString "Bus Pass Counter");
    ("counter", get b "counter");
    ("createdAt", JDate (now env)) ].

Definition failure (msg : string) : Response :=
  {| status := 500;
     json := JObject [("success", JBool false); ("error", JString msg)] |}.

Definition failure_silent (_ : string) : Response :=
  {| status := 500; json := JObject [("success", JBool false)] |}.

(** [app.post("/apply", ...)] *)
Definition apply_handler (env : Env) (req : Request)
  : Server -> Response * Server :=
  try_catch
    (fun st =>
       match applications st with
       | None =>
           ret {| status := 500;
                  json := JObject [("error", JString "DB not connected")] |} st
       | Some _ =>
           (let passId := generateUniquePassId env in
            qrDataUrl <- lift (QRCode_toDataURL rt passId) ;;
            let doc := application_doc env req passId qrDataUrl in
            insertedId <- applications_insertOne env doc ;;
            ret {| status := 200;
                   json := JObject [ ("success", JBool true);
                                     ("message", JString "Application stored");
                                     ("id", JObjectId insertedId);
                                     ("passId", JString passId);
                                     ("qrCode", JString qrDataUrl) ] |}) st
       end)
    failure.

(** The query [{ $or: [{ phone }, { whatsapp: phone }, { number: phone }] }] *)
Definition phone_query (phone : string) (d : Doc) : bool :=
  field_is "phone" phone d || field_is "whatsapp" phone d
  || field_is "number" phone d.

(** [app.get("/verify/:phone", ...)] *)
Definition verify_handler (env : Env) (phone : string)
  : Server -> Response * Server :=
  try_catch
    (applicant <- applications_findOne env (phone_query phone) ;;
     ret {| status := 200;
            json := match applicant with
                    | Some a => JObject [ ("success", JBool true);
                                          ("id", get a "_id") ]
                    | None => JObject [ ("success", JBool false) ]
                    end |})
    failure_silent.

(** [app.get("/applicant/:id", ...)] *)
Definition applicant_handler (env : Env) (id : string)
  : Server -> Response * Server :=
  try_catch
    (oid <- lift (ObjectId_new rt (JString id)) ;;
     applicant <- applications_findOne env (id_is oid) ;;
     ret {| status := 200;
            json := match applicant with
                    | Some a => JObject [ ("success", JBool true);
                                          ("applicant", JObject a) ]
                    | None => JObject [ ("success", JBool false) ]
                    end |})
    failure_silent.

(** [app.get("/getApplicant/:passId", ...)] *)
Definition getApplicant_handler (env : Env) (passId : string)
  : Server -> Response * Server :=
  try_catch
    (applicant <- applications_findOne env (field_is "passId" passId) ;;
     match applicant with
     | None => ret {| status := 404; json := JObject [ ("success", JBool false) ] |}
     | Some a => ret {| status := 200; json := JObject a |}
     end)
    failure_silent.

(** [paymentType === "PAID" ? Number(amount) : 0] *)
Definition fare (paymentType amount : Value) : number + string :=
  if strict_eq_string paymentType "PAID"
  then Number rt amount
  else inl (of_Z 0).

(** The document [ticketDoc] that [/bookTicket] assembles, [applicantId]
    being the value of [new ObjectId(applicantId)] and [amount] the value
    of the fare. *)
Definition ticketDoc (env : Env) (applicantId : ObjectId)
  (source destination paymentType : Value) (amount : number) : Doc :=
  [ ("applicantId", JObjectId applicantId);
    ("source", source);
    ("destination", destination);
    ("paymentType", paymentType);
    ("amount", JNumber amount);
    ("bookedAt", JDate (now env)) ].

(** [app.post("/bookTicket", ...)] *)
Definition bookTicket_handler (env : Env) (req : Request)
  : Server -> Response * Server :=
  try_catch
    (let applicantId := get (body req) "applicantId" in
     let source := get (body req) "source" in
     let destination := get (body req) "destination" in
     let paymentType := get (body req) "paymentType" in
     let amount := get (body req) "amount" in
     if negb (truthy applicantId) || negb (truthy source)
        || negb (truthy destination) || negb (truthy paymentType)
     then ret {| status := 200;
                 json := JObject [ ("success", JBool false);
                                   ("msg", JString "Missing fields") ] |}
     else
       oid <- lift (ObjectId_new rt applicantId) ;;
       charged <- lift (fare paymentType amount) ;;
       let ticketDoc :=
         ticketDoc env oid source destination paymentType charged in
       insertedId <- tickets_insertOne env ticketDoc ;;
       ret {| status := 200;
              json := JObject [ ("success", JBool true);
                                ("ticket", JObject (with_id ticketDoc insertedId)) ] |})
    failure.

End Handlers.

(** ** What the specification says, in its own words *)

(** "supplied non-empty": the value is there and is not the empty string.
    The handlers test this with JavaScript truthiness. *)
Definition supplied (v : Value) : Prop := truthy v = true.

(** "absent or empty": what [!v] accepts, that is [undefined], the empty
    string, and the other falsy values ([null], [false], 0, NaN). *)
Definition missing (v : Value) : Prop := truthy v = false.

(** A ticket record [d] was written by the step from [st] to [st']. *)
Definition ticket_created (st st' : Server) (d : Doc) : Prop :=
  exists ts, tickets st = Some ts /\ tickets st' = Some (ts ++ [d]).

(** An applicant record [d] was written by the step from [st] to [st']. *)
Definition applicant_stored (st st' : Server) (d : Doc) : Prop :=
  exists apps,
    applications st = Some apps /\ applications st' = Some (apps ++ [d]).

(** [resolveByRecordRef]: the applicant record a reference value
    dereferences to, as [/applicant/:id] looks it up. *)
Definition dereference (rt : Runtime) (st : Server) (ref : Value)
  : option Doc :=
  match ObjectId_new rt ref, applications st with
  | inl oid, Some apps => find (id_is oid) apps
  | _, _ => None
  end.

(** [max(0, x)] of the fare rule, as [Math.max(0, x)] computes it. *)
Definition max0 (x : number) : number :=
  match x with
  | S754_nan => NaN
  | S754_zero _ => pzero
  | S754_infinity s | S754_finite s _ _ => if s then pzero else x
  end.

Definition negative (x : number) : bool := SFltb x pzero.

(** The first non-empty value in the priority order phone, whatsapp,
    number. *)
Definition first_supplied (phone whatsapp number : Value) : Value :=
  if truthy phone then phone
  else if truthy whatsapp then whatsapp
  else number.

(** The response of a booking that went through. *)
Definition booked (d : Doc) : Response :=
  {| status := 200;
     json := JObject [ ("success", JBool true); ("ticket", JObject d) ] |}.

(** The fare of a request. *)
Definition fare_of (rt : Runtime) (req : Request) : number + string :=
  fare rt (get (body req) "paymentType") (get (body req) "amount").

(** The ticket a booking writes for a request that passed the checks,
    [oid] being the identifier and [x] the fare. *)
Definition ticket_of (env : Env) (req : Request) (oid : ObjectId)
  (x : number) : Doc :=
  with_id
    (ticketDoc env oid (get (body req) "source")
       (get (body req) "destination") (get (body req) "paymentType") x)
    (fresh_id env).

(** The response of an issuance that went through. *)
Definition issued (rt : Runtime) (env : Env) (qr : string) : Response :=
  {| status := 200;
     json := JObject [ ("success", JBool true);
                       ("message", JString "Application stored");
                       ("id", JObjectId (fresh_id env));
                       ("passId", JString (generateUniquePassId rt env));
                       ("qrCode", JString qr) ] |}.

(** The applicant record an issuance writes. *)
Definition applicant_of (rt : Runtime) (env : Env) (req : Request)
  (qr : string) : Doc :=
  with_id (application_doc env req (generateUniquePassId rt env) qr)
    (fresh_id env).

(** The member [k] of the object a response carries. *)
Definition answer (r : Response) (k : string) : Value :=
  match json r with
  | JObject o => get o k
  | _ => JUndefined
  end.

(** The [success] flag of a response. *)
Definition success_of (r : Response) : Value := answer r "success".

(** The claims on booking, as the specification words them. *)

Definition referential_integrity_claim (rt : Runtime) (env : Env)
  (req : Request) (st : Server) : Prop :=
  dereference rt st (get (body req) "applicantId") = None ->
  tickets (snd (bookTicket_handler rt env req st)) = tickets st.

Definition clamped_fare_claim (rt : Runtime) (env : Env)
  (req : Request) (st : Server) : Prop :=
  get (body req) "paymentType" = JString "PAID" ->
  forall d,
    ticket_created st (snd (bookTicket_handler rt env req st)) d ->
    (exists x,
       Number rt (get (body req) "amount") = inl x /\
       get d "amount" = JNumber (max0 x)) /\
    (forall x, get d "amount" = JNumber x -> negative x = false).

(** "absent or non-numeric": the amount is no number, and no string that
    reads as one. *)
Definition non_numeric (rt : Runtime) (v : Value) : Prop :=
  match v with
  | JNumber _ => False
  | JString s => StringToNumber rt s = NaN
  | _ => True
  end.

Definition unvalidated_amount_claim (rt : Runtime) (env : Env)
  (req : Request) (st : Server) : Prop :=
  supplied (get (body req) "applicantId") ->
  supplied (get (body req) "source") ->
  supplied (get (body req) "destination") ->
  get (body req) "paymentType" = JString "PAID" ->
  non_numeric rt (get (body req) "amount") ->
  (exists ts, tickets st = Some ts) ->
  store_error env = None ->
  success_of (fst (bookTicket_handler rt env req st)) = JBool true /\
  exists d,
    ticket_created st (snd (bookTicket_handler rt env req st)) d /\
    get d "amount" = JNumber NaN.

(** The claim on lookup after issuance, as the specification words it. *)
Definition lookup_returns_issued_claim (rt : Runtime) (env env' : Env)
  (req : Request) (st : Server) : Prop :=
  store_error env' = None ->
  let r := fst (apply_handler rt env req st) in
  let st' := snd (apply_handler rt env req st) in
  success_of r = JBool true ->
  forall passId,
    answer r "passId" = JString passId ->
    exists a,
      fst (getApplicant_handler env' passId st') =
        {| status := 200; json := JObject a |} /\
      get a "_id" = answer r "id".

(** ** Notions the proofs about rounding and printing use *)

(** [shifted k X mrs]: the record [mrs] is [X] shifted right by [k] bits:
    its mantissa is the quotient, its round and sticky bits locate the
    remainder [rem] against half of [2^k]. *)
Definition shifted (k X : Z) (mrs : shr_record) : Prop :=
  exists rem,
    (0 <= rem < 2 ^ k /\
     X = shr_m mrs * 2 ^ k + rem /\
     0 <= shr_m mrs /\
     (shr_r mrs = true <-> 2 ^ k <= 2 * rem) /\
     (shr_s mrs = true <-> 2 * rem <> 0 /\ 2 * rem <> 2 ^ k))%Z.

(** The mantissas of 90000000 and of 10000000 as doubles. *)
Definition nine : positive := 6039797760000000.
Definition ten : positive := 5368709120000000.

(** [k + 1] is the number of decimal digits of [n]. *)
Definition has_digits (k : nat) (n : N) : Prop :=
  (n < 10 ^ N.of_nat (S k) /\ (k = O \/ 10 ^ N.of_nat k <= n))%N.

(** ** A runtime to evaluate examples with *)

Module Sample.

Definition hex_digit (c : ascii) : option N :=
  let n := N_of_ascii c in
  if ((48 <=? n) && (n <=? 57))%N then Some (n - 48)%N
  else if ((97 <=? n) && (n <=? 102))%N then Some (n - 87)%N
  else if ((65 <=? n) && (n <=? 70))%N then Some (n - 55)%N
  else None.

Fixpoint hex_value (s : string) (acc : N) : option N :=
  match s with
  | EmptyString => Some acc
  | String c s' =>
      match hex_digit c with
      | Some d => hex_value s' (16 * acc + d)%N
      | None => None
      end
  end.

Definition invalid_id : string :=
  "input must be a 24 character hex string, 12 byte Uint8Array, or an integer".

(** [new ObjectId(s)] on strings whose length is not 12: a string of 24
    hexadecimal characters is the identifier it spells, any other string
    makes the constructor throw. *)
Definition ObjectId_of_hex (v : Value) : ObjectId + string :=
  match v with
  | JString s =>
      if Nat.eqb (String.length s) 24
      then match hex_value s 0 with
           | Some n => inl n
           | None => inr invalid_id
           end
      else inr invalid_id
  | _ => inr invalid_id
  end.

(** [Number(s)] on strings of decimal digits (the empty string is 0); the
    other numeric literals are outside this sample and read as NaN. *)
Definition Number_of_digits (s : string) : number :=
  match numeral_from s 0 with
  | Some n => of_Z (Z.of_N n)
  | None => NaN
  end.

Fixpoint has_member (k : string) (o : Obj) : bool :=
  match o with
  | [] => false
  | (k', _) :: o' => String.eqb k' k || has_member k o'
  end.

Definition not_primitive : string :=
  "Cannot convert object to primitive value".

(** [Number(v)] on the objects and arrays [JSON.parse] makes.  An object
    with a member [toString] cannot be converted (the member is no
    function, JSON has none), and [Number] throws; any other one prints as
    "[object Object]", which is no number.  An array prints as its elements
    between commas, [null] printing as nothing: the empty array is 0, an
    array of one element is what [Number] makes of that element's print,
    a longer one is no number.  A date is its time.  An identifier of the
    store is never in a request; it is given no number here. *)
Fixpoint Number_of_object (v : Value) : number + string :=
  match v with
  | JObject members =>
      if has_member "toString" members then inr not_primitive else inl NaN
  | JArray [] => inl pzero
  | JArray [e] =>
      match e with
      | JUndefined | JNull => inl pzero
      | JBool _ => inl NaN
      | JNumber (S754_zero _) => inl pzero
      | JNumber x => inl x
      | JString s => inl (Number_of_digits s)
      | JDate _ | JObjectId _ => inl NaN
      | JArray _ | JObject _ => Number_of_object e
      end
  | JArray _ => inl NaN
  | JDate t => inl (of_Z t)
  | _ => inl NaN
  end.

Definition rt : Runtime :=
  {| StringToNumber := Number_of_digits;
     ObjectToNumber := Number_of_object;
     FractionToString := fun _ => "";
     ObjectId_new := ObjectId_of_hex;
     QRCode_toDataURL := fun s => inl ("data:image/png;base64," ++ s)%string |}.

Definition connected : Server :=
  {| applications := Some []; tickets := Some [] |}.

Definition env (r : number) (id : ObjectId) : Env :=
  {| random := r; now := 1700000000000; fresh_id := id; store_error := None |}.
Arguments env r id%_N.

(** 0.5 *)
Definition half : number := S754_finite false 4503599627370496 (-53).

(** The largest double below 1. *)
Definition below_one : number := S754_finite false 9007199254740991 (-53).

Definition an_id : string := "650000000000000000000001".

Definition booking (applicantId paymentType amount : Value) : Request :=
  {| body := [ ("applicantId", applicantId);
               ("source", JString "A");
               ("destination", JString "B");
               ("paymentType", paymentType);
               ("amount", amount) ];
     files := None |}.

Definition application (fields : Obj) : Request :=
  {| body := ("name", JString "Lakshmi") :: fields; files := None |}.

(** The identifier [an_id] spells. *)
Definition an_oid : ObjectId :=
  Eval vm_compute in
    match hex_value an_id 0 with
    | Some n => n
    | None => 0%N
    end.

(** -5 *)
Definition minus_five : number := Eval vm_compute in of_Z (-5).

(** What [JSON.parse] makes of [{"toString": 1}]. *)
Definition no_number : Value := JObject [ ("toString", JNumber (of_Z 1)) ].

(** The server after one issuance whose draw was 0.5. *)
Definition issued_once : Server :=
  snd (apply_handler rt (env half 1) (application []) connected).

End Sample.

(** ** The routes, and requests served one after another *)

(** A request to one of the routes that [app.post] and [app.get] register.
    Each handler touches the store in one call at most, so requests that
    overlap in time act on the store as if served in the order of those
    calls. *)
Inductive Call : Type :=
| PostApply (env : Env) (req : Request)
| GetVerify (env : Env) (phone : string)
| GetApplicant (env : Env) (id : string)
| GetApplicantByPassId (env : Env) (passId : string)
| PostBookTicket (env : Env) (req : Request).

Definition route (rt : Runtime) (c : Call) : Server -> Response * Server :=
  match c with
  | PostApply env req => apply_handler rt env req
  | GetVerify env phone => verify_handler env phone
  | GetApplicant env id => applicant_handler rt env id
  | GetApplicantByPassId env passId => getApplicant_handler env passId
  | PostBookTicket env req => bookTicket_handler rt env req
  end.

(** The server state after a list of requests. *)
Fixpoint serve (rt : Runtime) (cs : list Call) (st : Server) : Server :=
  match cs with
  | [] => st
  | c :: cs' => serve rt cs' (snd (route rt c st))
  end.

(** A collection handle keeps its state of connection and only gains
    documents at its end. *)
Definition grown (c c' : option Collection) : Prop :=
  match c, c' with
  | Some l, Some l' => exists added, l' = l ++ added
  | None, None => True
  | _, _ => False
  end.

Definition extends (st st' : Server) : Prop :=
  grown (applications st) (applications st') /\
  grown (tickets st) (tickets st').

(** Every issuance among the requests draws its number in the range of
    [Math.random()]. *)
Fixpoint valid_draws (cs : list Call) : Prop :=
  match cs with
  | [] => True
  | PostApply env _ :: cs' => unit_interval (random env) = true /\ valid_draws cs'
  | _ :: cs' => valid_draws cs'
  end.

(** What every applicant record written by [/apply] looks like. *)
Definition issued_record (d : Doc) : Prop :=
  (exists n : N,
     (10000000 <= n <= 99999999)%N /\
     get d "passId" = JString ("TSRTC-" ++ decimal n)%string) /\
  (exists qr, get d "qrCode" = JString qr) /\
  get d "paymentMode" = JString "FREE SCHEME" /\
  get d "deliveryMode" = JString "Bus Pass Counter" /\
  (exists t, get d "createdAt" = JDate t) /\
  (exists o, get d "_id" = JObjectId o).

(** What every ticket record written by [/bookTicket] looks like. *)
Definition booked_record (d : Doc) : Prop :=
  (exists o, get d "applicantId" = JObjectId o) /\
  supplied (get d "source") /\
  supplied (get d "destination") /\
  supplied (get d "paymentType") /\
  (exists x, get d "amount" = JNumber x) /\
  (get d "paymentType" <> JString "PAID" -> get d "amount" = JNumber pzero) /\
  (exists t, get d "bookedAt" = JDate t) /\
  (exists o, get d "_id" = JObjectId o).

Definition every_record (P : Doc -> Prop) (c : option Collection) : Prop :=
  match c with
  | Some l => Forall P l
  | None => True
  end.

Definition records_well_formed (st : Server) : Prop :=
  every_record issued_record (applications st) /\
  every_record booked_record (tickets st).

(** ** Uploaded files *)

(** [filename: (req, file, cb) => cb(null, Date.now() + "-" + file.originalname)]
    of the multer storage; [now] is the value of [Date.now()]. *)
Definition storage_filename (rt : Runtime) (now : Z) (originalname : string)
  : string :=
  (NumberToString rt (of_Z now) ++ "-" ++ originalname)%string.

(** ** More requests and states to evaluate examples with *)

Module Cases.

(** The server when [connectDB] failed. *)
Definition disconnected : Server :=
  {| applications := None; tickets := None |}.

(** A request during which the store rejects its call. *)
Definition rejecting (id : ObjectId) : Env :=
  {| random := Sample.half; now := 1700000000000; fresh_id := id;
     store_error := Some "connection closed" |}.
Arguments rejecting id%_N.

(** A runtime whose encoder rejects. *)
Definition no_encoder : Runtime :=
  {| StringToNumber := StringToNumber Sample.rt;
     ObjectToNumber := ObjectToNumber Sample.rt;
     FractionToString := FractionToString Sample.rt;
     ObjectId_new := ObjectId_new Sample.rt;
     QRCode_toDataURL := fun _ => inr "encoding failed" |}.

Definition with_phone : Request :=
  Sample.application [("phone", JString "9000000001")].

(** The code [Sample.rt] encodes the identifier drawn at 0.5 into. *)
Definition qr_55 : string := "data:image/png;base64,TSRTC-55000000".

(** The server after one issuance with a phone number. *)
Definition issued_with_phone : Server :=
  snd (apply_handler Sample.rt (Sample.env Sample.half 1) with_phone
         Sample.connected).

(** The identifier 1 of the store, as a client writes it. *)
Definition id_1 : string := "000000000000000000000001".
Definition id_2 : string := "000000000000000000000002".

Definition paid_50 : Request :=
  Sample.booking (JString Sample.an_id) (JString "PAID") (JString "50").

(** An issuance with the draw of [Sample.issued_once], then a booking. *)
Definition two_more : list Call :=
  [ PostApply (Sample.env Sample.half 2) (Sample.application []);
    PostBookTicket (Sample.env Sample.half 3) paid_50 ].

End Cases.

(** ** Rounding to a double *)

Module Binary64.

Local Open Scope Z_scope.

Lemma shifted_0 X :
  0 <= X -> shifted 0 X {| shr_m := X; shr_r := false; shr_s := false |}.
Proof.
  intros HX. exists 0. cbn. repeat split; try lia; try discriminate.
Qed.

Local Ltac close_step :=
  match goal with
  | Hrs : orb _ _ = true <-> _ |- _ =>
      destruct Hrs as [Hrs1 Hrs2];
      repeat split; intros; try lia; try discriminate;
      try (apply Hrs2; lia);
      try (match goal with H : orb _ _ = true |- _ => specialize (Hrs1 H) end; lia)
  end.

(** One more bit shifted out keeps the record in step with [X]. *)
Lemma shifted_step k X mrs :
  0 <= k -> shifted k X mrs -> shifted (k + 1) X (shr_1 mrs).
Proof.
  intros Hk (rem & Hrem & HX & Hm & Hr & Hs).
  unfold shifted. rewrite Z.pow_add_r, Z.pow_1_r by lia.
  assert (HP : 0 < 2 ^ k) by (apply Z.pow_pos_nonneg; lia).
  set (P := 2 ^ k) in *. clearbody P.
  destruct mrs as [m r s]. cbn [shr_m shr_r shr_s] in *.
  assert (Hrs : orb r s = true <-> rem <> 0).
  { rewrite orb_true_iff, Hr, Hs. lia. }
  destruct m as [|p|p]; [| |lia].
  - exists rem. cbn [shr_1 shr_m shr_r shr_s]. close_step.
  - destruct p as [p|p|]; cbn [shr_1 shr_m shr_r shr_s].
    + exists (rem + P). rewrite Pos2Z.inj_xI in HX. close_step.
    + exists rem. rewrite Pos2Z.inj_xO in HX. close_step.
    + exists (rem + P). close_step.
Qed.

Lemma shifted_iter p : forall k X mrs,
  0 <= k -> shifted k X mrs -> shifted (k + Zpos p) X (iter_pos shr_1 p mrs).
Proof.
  induction p as [p IH|p IH|]; intros k X mrs Hk H; cbn [iter_pos].
  - replace (k + Zpos p~1) with ((k + 1 + Zpos p) + Zpos p) by lia.
    apply IH; [lia|]. apply IH; [lia|]. now apply shifted_step.
  - replace (k + Zpos p~0) with ((k + Zpos p) + Zpos p) by lia.
    apply IH; [lia|]. now apply IH.
  - now apply shifted_step.
Qed.

Lemma fexp_eq e : fexp prec emax e = Z.max (e - 53) (-1074).
Proof. reflexivity. Qed.

(** [digits2_pos p] is the number of bits of [p]. *)
Lemma digits2_bounds p :
  2 ^ (Zpos (digits2_pos p) - 1) <= Zpos p < 2 ^ Zpos (digits2_pos p).
Proof.
  induction p as [p IH|p IH|]; cbn [digits2_pos];
    rewrite ?Pos2Z.inj_succ.
  - replace (Z.succ (Zpos (digits2_pos p)) - 1)
      with (Zpos (digits2_pos p) - 1 + 1) by lia.
    rewrite !Z.pow_succ_r, Z.pow_add_r, Z.pow_1_r by lia. lia.
  - replace (Z.succ (Zpos (digits2_pos p)) - 1)
      with (Zpos (digits2_pos p) - 1 + 1) by lia.
    rewrite !Z.pow_succ_r, Z.pow_add_r, Z.pow_1_r by lia. lia.
  - cbn. lia.
Qed.

Lemma digits2_le p k : Zpos p < 2 ^ k -> Zpos (digits2_pos p) <= k.
Proof.
  intros H. destruct (digits2_bounds p) as [Hlo _].
  destruct (Z.le_gt_cases (Zpos (digits2_pos p)) k) as [|Hgt]; [assumption|].
  assert (2 ^ k <= 2 ^ (Zpos (digits2_pos p) - 1)).
  { destruct (Z.le_gt_cases 0 k).
    - apply Z.pow_le_mono_r; lia.
    - rewrite (Z.pow_neg_r 2 k) by lia. apply Z.pow_nonneg. lia. }
  lia.
Qed.

(** Rounding to nearest even after a shift by [k] bits: the result is at
    least every whole [L] below [X / 2^k], and at most every whole [H]
    that [X / 2^k] is nearer to than to [H + 1]. *)
Lemma round_shifted k X mrs :
  0 <= k -> shifted k X mrs ->
  let m2 := round_nearest_even (shr_m mrs) (loc_of_shr_record mrs) in
  0 <= m2 /\
  (forall L, L * 2 ^ k <= X -> L <= m2) /\
  (forall H, 2 * X < (2 * H + 1) * 2 ^ k -> m2 <= H).
Proof.
  intros Hk (rem & Hrem & HX & Hm & Hr & Hs).
  assert (HP : 0 < 2 ^ k) by (apply Z.pow_pos_nonneg; lia).
  set (P := 2 ^ k) in *. clearbody P.
  destruct mrs as [q r s]. cbn [shr_m shr_r shr_s] in *.
  assert (Hlow : forall L, L * P <= X -> L <= q) by (intros L HL; nia).
  assert (Hup : forall H, 2 * X < (2 * H + 1) * P -> q <= H) by (intros H HH; nia).
  assert (Hup1 : forall H, 2 * X < (2 * H + 1) * P -> P <= 2 * rem -> q + 1 <= H)
    by (intros H HH Hge; nia).
  destruct r, s; cbn [loc_of_shr_record round_nearest_even].
  - split; [lia|]. split; intros B HB.
    + specialize (Hlow B HB). lia.
    + apply Hup1; [assumption | apply Hr; reflexivity].
  - destruct (Z.even q).
    + split; [lia|]. split; intros B HB; [now apply Hlow | now apply Hup].
    + split; [lia|]. split; intros B HB.
      * specialize (Hlow B HB). lia.
      * apply Hup1; [assumption | apply Hr; reflexivity].
  - split; [lia|]. split; intros B HB; [now apply Hlow | now apply Hup].
  - split; [lia|]. split; intros B HB; [now apply Hlow | now apply Hup].
Qed.

Lemma pow2_split a b : 0 <= a -> 0 <= b -> 2 ^ (a + b) = 2 ^ a * 2 ^ b.
Proof. intros. apply Z.pow_add_r; lia. Qed.

Lemma pow2_pos a : 0 <= a -> 0 < 2 ^ a.
Proof. intros. apply Z.pow_pos_nonneg; lia. Qed.

(** The double that [X * 2^ex] rounds to is a whole number [m2] of units
    of [2^e1], [e1] being the exponent of the binade of [X * 2^ex]; [m2]
    is at most 2^53 and obeys the two bounds of rounding to nearest.  The
    bounds compare values scaled by [2^-lo], for any [lo] below both
    exponents. *)
Lemma binary_round_aux_units (X : positive) (ex lo : Z) :
  let e1 := fexp prec emax (Zdigits2 (Zpos X) + ex) in
  ex <= 970 -> e1 <= 970 -> lo <= ex -> lo <= e1 ->
  exists m2,
    units e1 (binary_round_aux prec emax false (Zpos X) ex loc_Exact) = Some m2 /\
    0 <= m2 <= 2 ^ 53 /\
    (forall L, L * 2 ^ (e1 - lo) <= Zpos X * 2 ^ (ex - lo) -> L <= m2) /\
    (forall H, 2 * (Zpos X * 2 ^ (ex - lo)) < (2 * H + 1) * 2 ^ (e1 - lo) ->
               m2 <= H).
Proof.
  intros e1 Hex He1 Hlo1 Hlo2.
  assert (He1eq : e1 = Z.max (Zpos (digits2_pos X) + ex - 53) (-1074))
    by reflexivity.
  destruct (digits2_bounds X) as [Hdlo Hdhi].
  set (d := Zpos (digits2_pos X)) in *.
  assert (Hd : 0 < d) by (unfold d; lia).
  pose proof (eq_refl : fexp prec emax (Zdigits2 (Zpos X) + ex) = e1) as Hf.
  clearbody e1.
  unfold binary_round_aux, shr_fexp. rewrite Hf.
  destruct (e1 - ex) as [|p|p] eqn:Hn.
  - (* the mantissa is on the grid already *)
    assert (e1 = ex) by lia.
    cbn [shr shr_record_of_loc shr_m loc_of_shr_record round_nearest_even].
    rewrite Hf, Hn.
    cbn [shr shr_m]. replace (ex <=? emax - prec) with true
      by (symmetry; apply Z.leb_le; unfold emax, prec; lia).
    exists (Zpos X). subst ex. cbn [units]. rewrite Z.leb_refl, Z.sub_diag.
    rewrite Z.mul_1_r. split; [reflexivity|].
    assert (d <= 53) by lia.
    assert (2 ^ d <= 2 ^ 53) by (apply Z.pow_le_mono_r; lia).
    split; [lia|]. split; intros B HB; nia.
  - (* [p] bits are shifted out *)
    assert (Hsh : shifted (0 + Zpos p) (Zpos X)
              (iter_pos shr_1 p {| shr_m := Zpos X; shr_r := false; shr_s := false |})).
    { apply shifted_iter; [lia|]. apply shifted_0. lia. }
    rewrite Z.add_0_l in Hsh.
    cbn [shr shr_record_of_loc].
    set (mrs1 := iter_pos shr_1 p _) in *.
    destruct (round_shifted (Zpos p) (Zpos X) mrs1 ltac:(lia) Hsh)
      as (Hm0 & Hlow & Hup).
    set (m2 := round_nearest_even (shr_m mrs1) (loc_of_shr_record mrs1)) in *.
    replace (ex + Zpos p) with e1 by lia.
    assert (HP : 0 < 2 ^ Zpos p) by (apply pow2_pos; lia).
    assert (Hm53 : m2 <= 2 ^ 53).
    { apply Hup.
      assert (d <= 53 + Zpos p) by lia.
      assert (2 ^ d <= 2 ^ (53 + Zpos p)) by (apply Z.pow_le_mono_r; lia).
      rewrite pow2_split in * by lia. nia. }
    assert (Hscale : 2 ^ (e1 - lo) = 2 ^ Zpos p * 2 ^ (ex - lo)).
    { replace (e1 - lo) with (Zpos p + (ex - lo)) by lia.
      apply pow2_split; lia. }
    assert (HQ : 0 < 2 ^ (ex - lo)) by (apply pow2_pos; lia).
    assert (Hbounds :
      (forall L, L * 2 ^ (e1 - lo) <= Zpos X * 2 ^ (ex - lo) -> L <= m2) /\
      (forall H, 2 * (Zpos X * 2 ^ (ex - lo)) < (2 * H + 1) * 2 ^ (e1 - lo) ->
                 m2 <= H)).
    { rewrite Hscale. split; intros B HB.
      - apply Hlow. nia.
      - apply Hup. nia. }
    clearbody m2. clear Hlow Hup Hsh mrs1.
    destruct m2 as [|q|q]; [| |lia].
    + (* rounded to zero *)
      cbn [Zdigits2]. rewrite fexp_eq.
      destruct (Z.max (0 + e1 - 53) (-1074) - e1) eqn:Hn2; try lia.
      all: cbn [shr shr_m]; exists 0; cbn [units]; split; [reflexivity|];
        split; [lia | exact Hbounds].
    + cbn [Zdigits2]. rewrite fexp_eq.
      destruct (Z.eq_dec (Zpos q) (2 ^ 53)) as [Hq|Hq].
      * (* the carry: 2^53 becomes 2^52 one binade up *)
        injection Hq as ->. cbn [digits2_pos Pos.succ].
        replace (Z.max (54 + e1 - 53) (-1074) - e1) with 1 by lia.
        cbn [shr iter_pos shr_1 shr_m].
        replace (e1 + 1 <=? emax - prec) with true
          by (symmetry; apply Z.leb_le; unfold emax, prec; lia).
        exists (2 ^ 53). cbn [units].
        replace (e1 <=? e1 + 1) with true by (symmetry; apply Z.leb_le; lia).
        replace (e1 + 1 - e1) with 1 by lia.
        split; [reflexivity|]. split; [lia | exact Hbounds].
      * assert (Zpos (digits2_pos q) <= 53) by (apply digits2_le; lia).
        destruct (Z.max (Zpos (digits2_pos q) + e1 - 53) (-1074) - e1) eqn:Hn2;
          try lia.
        all: cbn [shr shr_m];
          replace (e1 <=? emax - prec) with true
            by (symmetry; apply Z.leb_le; unfold emax, prec; lia);
          exists (Zpos q); cbn [units];
          rewrite Z.leb_refl, Z.sub_diag, Z.mul_1_r;
          split; [reflexivity|]; split; [lia | exact Hbounds].
  - (* the mantissa is finer than the grid allows: no shift is made *)
    cbn [shr shr_record_of_loc shr_m loc_of_shr_record round_nearest_even].
    rewrite Hf, Hn.
    cbn [shr shr_m]. replace (ex <=? emax - prec) with true
      by (symmetry; apply Z.leb_le; unfold emax, prec; lia).
    exists (Zpos X * 2 ^ (ex - e1)). cbn [units].
    replace (e1 <=? ex) with true by (symmetry; apply Z.leb_le; lia).
    split; [reflexivity|].
    assert (HQ : 0 < 2 ^ (ex - e1)) by (apply pow2_pos; lia).
    assert (HR : 0 < 2 ^ (e1 - lo)) by (apply pow2_pos; lia).
    assert (Hscale : 2 ^ (ex - lo) = 2 ^ (ex - e1) * 2 ^ (e1 - lo)).
    { replace (ex - lo) with ((ex - e1) + (e1 - lo)) by lia.
      apply pow2_split; lia. }
    assert (d + (ex - e1) <= 53) by lia.
    assert (2 ^ (d + (ex - e1)) <= 2 ^ 53) by (apply Z.pow_le_mono_r; lia).
    rewrite pow2_split in * by lia.
    split; [nia|]. rewrite Hscale. split; intros B HB; nia.
Qed.

Lemma iter_xO_value (m : positive) (d : positive) :
  Zpos (Pos.iter xO m d) = Zpos m * 2 ^ Zpos d.
Proof.
  induction d as [|d IH] using Pos.peano_ind.
  - cbn [Pos.iter]. rewrite Z.pow_1_r. lia.
  - rewrite Pos.iter_succ, Pos2Z.inj_xO, IH, Pos2Z.inj_succ, Z.pow_succ_r by lia.
    lia.
Qed.

Lemma iter_xO_digits (m : positive) (d : positive) :
  Zpos (digits2_pos (Pos.iter xO m d)) = Zpos (digits2_pos m) + Zpos d.
Proof.
  induction d as [|d IH] using Pos.peano_ind.
  - cbn [Pos.iter digits2_pos]. lia.
  - rewrite Pos.iter_succ. cbn [digits2_pos]. lia.
Qed.

Lemma shl_align_value (m : positive) (e e' : Z) :
  e' <= e -> Zpos (fst (shl_align m e e')) = Zpos m * 2 ^ (e - e').
Proof.
  intros H. unfold shl_align.
  destruct (e' - e) as [|d|d] eqn:Hd; try lia; cbn [fst].
  - replace (e - e') with 0 by lia. lia.
  - rewrite iter_xO_value. f_equal. f_equal. lia.
Qed.

(** The same for [binary_round], which first aligns a short mantissa. *)
Lemma binary_round_units (X : positive) (ex lo : Z) :
  let e1 := fexp prec emax (Zdigits2 (Zpos X) + ex) in
  ex <= 970 -> e1 <= 970 -> lo <= ex -> lo <= e1 ->
  exists m2,
    units e1 (binary_round prec emax false X ex) = Some m2 /\
    0 <= m2 <= 2 ^ 53 /\
    (forall L, L * 2 ^ (e1 - lo) <= Zpos X * 2 ^ (ex - lo) -> L <= m2) /\
    (forall H, 2 * (Zpos X * 2 ^ (ex - lo)) < (2 * H + 1) * 2 ^ (e1 - lo) ->
               m2 <= H).
Proof.
  intros e1 Hex He1 Hlo1 Hlo2.
  unfold binary_round, shl_align. cbn [Zdigits2] in e1. fold e1.
  destruct (e1 - ex) as [|d|d] eqn:Hd.
  - apply (binary_round_aux_units X ex lo); assumption.
  - apply (binary_round_aux_units X ex lo); assumption.
  - pose proof (binary_round_aux_units (Pos.iter xO X d) e1 lo) as Haux.
    cbn zeta in Haux. cbn [Zdigits2] in Haux.
    rewrite iter_xO_digits in Haux.
    replace (Zpos (digits2_pos X) + Zpos d + e1)
      with (Zpos (digits2_pos X) + ex) in Haux by lia.
    fold e1 in Haux.
    destruct (Haux He1 He1 Hlo2 Hlo2) as (m2 & Hu & Hm & Hlow & Hup).
    exists m2. split; [exact Hu|]. split; [exact Hm|].
    assert (Hval : Zpos (Pos.iter xO X d) * 2 ^ (e1 - lo) = Zpos X * 2 ^ (ex - lo)).
    { rewrite iter_xO_value.
      replace (ex - lo) with (Zpos d + (e1 - lo)) by lia.
      rewrite pow2_split by lia. lia. }
    rewrite Hval in Hlow, Hup. split; assumption.
Qed.

Lemma units_rescale u u' x k :
  units u x = Some k -> u' <= u -> units u' x = Some (k * 2 ^ (u - u')).
Proof.
  intros H Hu. destruct x as [s|s| |s m e]; cbn [units] in *; try discriminate.
  - injection H as <-. reflexivity.
  - destruct s; [discriminate|].
    destruct (u <=? e) eqn:Hue; [|discriminate].
    apply Z.leb_le in Hue.
    assert (Hk : k = Zpos m * 2 ^ (e - u)) by congruence. subst k.
    replace (u' <=? e) with true by (symmetry; apply Z.leb_le; lia).
    replace (e - u') with ((e - u) + (u - u')) by lia.
    rewrite pow2_split by lia. apply f_equal. ring.
Qed.

(** A double in the unit interval has an exponent of at most -53. *)
Lemma unit_interval_finite m e :
  unit_interval (S754_finite false m e) = true ->
  -1074 <= e <= -53 /\ Zpos m < 2 ^ 53.
Proof.
  unfold unit_interval, bounded, canonical_mantissa.
  rewrite !andb_true_iff, Z.eqb_eq, fexp_eq.
  intros [[Hcan _] Hlt].
  destruct (digits2_bounds m) as [Hdlo Hdhi].
  set (d := Zpos (digits2_pos m)) in *. clearbody d.
  assert (Hd53 : d <= 53) by lia.
  assert (H53 : 2 ^ d <= 2 ^ 53) by (apply Z.pow_le_mono_r; lia).
  assert (He : e < -52).
  { change (of_Z 1) with (S754_finite false 4503599627370496 (-52)) in Hlt.
    unfold SFltb, SFcompare in Hlt.
    destruct (e ?= -52) eqn:Hcmp.
    - apply Z.compare_eq in Hcmp. subst e.
      assert (Hd : d - 1 = 52) by lia.
      rewrite Hd in Hdlo.
      destruct (Pos.compare_cont Eq m 4503599627370496) eqn:Hm;
        try discriminate Hlt.
      assert (Hm' : (m < 4503599627370496)%positive) by exact Hm.
      change (2 ^ 52) with (Zpos 4503599627370496) in Hdlo.
      apply Pos2Z.pos_le_pos in Hdlo.
      now apply Pos.lt_nle in Hm'.
    - now apply Z.compare_lt_iff in Hcmp.
    - discriminate Hlt. }
  clear Hlt. lia.
Qed.

(** [Math.random() * 90000000], rounded, is at most the double just below
    90000000. *)
Lemma product_units r :
  unit_interval r = true ->
  exists kp,
    units (-1074) (fmul r (of_Z 90000000)) = Some kp /\
    0 <= kp <= (Zpos nine - 1) * 2 ^ 1048.
Proof.
  intros Hr.
  change (of_Z 90000000) with (S754_finite false nine (-26)).
  destruct r as [s|s| |s m e]; try discriminate Hr.
  - destruct s; [discriminate Hr|]. exists 0. split; [reflexivity|].
    split; [lia|]. apply Z.mul_nonneg_nonneg; [unfold nine; lia|].
    apply Z.pow_nonneg. lia.
  - destruct s; [discriminate Hr|].
    apply unit_interval_finite in Hr. destruct Hr as [He Hm].
    unfold fmul, SFmul. cbn [xorb].
    pose proof (binary_round_aux_units (m * nine) (e + -26) (-1100)) as Hround.
    cbn zeta in Hround. cbn [Zdigits2] in Hround.
    destruct (digits2_bounds (m * nine)) as [Hdlo Hdhi].
    assert (Hd : Zpos (digits2_pos (m * nine)) <= 106).
    { apply digits2_le. rewrite Pos2Z.inj_mul.
      change (2 ^ 106) with (2 ^ 53 * 2 ^ 53).
      assert (Zpos nine < 2 ^ 53) by (unfold nine; reflexivity).
      apply Z.mul_lt_mono_nonneg; lia. }
    clear Hdlo Hdhi.
    set (d := Zpos (digits2_pos (m * nine))) in *. clearbody d.
    rewrite fexp_eq in Hround.
    set (e1 := Z.max (d + (e + -26) - 53) (-1074)) in *.
    assert (He1 : -1074 <= e1 <= -26) by lia.
    clearbody e1.
    destruct Hround as (m2 & Hu & Hm2 & _ & Hup); try lia.
    apply units_rescale with (u' := -1074) in Hu; [|lia].
    exists (m2 * 2 ^ (e1 - -1074)). split; [exact Hu|].
    assert (HT : 0 < 2 ^ (e1 - -1074)) by (apply pow2_pos; lia).
    split; [apply Z.mul_nonneg_nonneg; lia|].
    destruct (Z.eq_dec e1 (-26)) as [Heq|Hne].
    + (* the top binade: the product rounds below 90000000 *)
      subst e1. change (-26 - -1074) with 1048.
      apply Z.mul_le_mono_nonneg_r; [lia|].
      apply Hup. clear Hup Hu HT.
      change (-26 - -1100) with (53 + 1021).
      rewrite pow2_split by lia.
      replace (e + -26 - -1100) with (e + 1074) by lia.
      assert (HA : 0 < 2 ^ 1021) by (apply pow2_pos; lia).
      assert (HTA : 2 ^ (e + 1074) <= 2 ^ 1021) by (apply Z.pow_le_mono_r; lia).
      assert (HT0 : 0 < 2 ^ (e + 1074)) by (apply pow2_pos; lia).
      set (A := 2 ^ 1021) in *. set (T := 2 ^ (e + 1074)) in *.
      clearbody A T.
      rewrite Pos2Z.inj_mul.
      assert (HmT : Zpos m * T <= (2 ^ 53 - 1) * A).
      { apply Z.mul_le_mono_nonneg; lia. }
      change (2 ^ 53) with 9007199254740992 in *. unfold nine.
      replace (Zpos m * 6039797760000000 * T)
        with (6039797760000000 * (Zpos m * T)) by ring.
      set (V := Zpos m * T) in *. clearbody V.
      clear - HmT HA. lia.
    + (* a lower binade: whatever the rounding, at most 2^26 *)
      assert (HB : 2 ^ (e1 - -1074) <= 2 ^ 1047) by (apply Z.pow_le_mono_r; lia).
      change (2 ^ 1048) with (2 * 2 ^ 1047).
      assert (HB0 : 0 < 2 ^ 1047) by (apply pow2_pos; lia).
      set (B := 2 ^ 1047) in *. set (T := 2 ^ (e1 - -1074)) in *.
      clearbody B T.
      assert (HmT : m2 * T <= 2 ^ 53 * B).
      { apply Z.mul_le_mono_nonneg; lia. }
      change (2 ^ 53) with 9007199254740992 in *. unfold nine.
      set (V := m2 * T) in *. clearbody V.
      clear - HmT HB0. lia.
Qed.

(** [10000000 + p], rounded, lies from 10000000 to the double just below
    100000000 when [p] is at most the double just below 90000000. *)
Lemma sum_units p kp :
  units (-1074) p = Some kp ->
  0 <= kp <= (Zpos nine - 1) * 2 ^ 1048 ->
  exists ks,
    units (-29) (fadd (of_Z 10000000) p) = Some ks /\
    10000000 * 2 ^ 29 <= ks <= (100000000 * 2 ^ 26 - 1) * 2 ^ 3.
Proof.
  intros Hp Hkp.
  change (of_Z 10000000) with (S754_finite false ten (-29)).
  destruct p as [s|s| |s mp ep]; try discriminate Hp.
  - (* nothing is added *)
    exists (Zpos ten). split; [reflexivity|]. unfold ten. cbn. lia.
  - destruct s; [discriminate Hp|]. cbn [units] in Hp.
    destruct (-1074 <=? ep) eqn:Hep; [|discriminate Hp].
    apply Z.leb_le in Hep.
    assert (Hk : kp = Zpos mp * 2 ^ (ep - -1074)) by congruence.
    clear Hp.
    unfold fadd, SFadd. cbn [cond_Zopp].
    set (ez := Z.min (-29) ep).
    assert (Hez : -1074 <= ez <= -29) by lia.
    assert (Hez' : ez <= ep) by lia.
    clearbody ez.
    pose proof (shl_align_value ten (-29) ez ltac:(lia)) as Ha1.
    pose proof (shl_align_value mp ep ez Hez') as Ha2.
    set (a1 := fst (shl_align ten (-29) ez)) in *.
    set (a2 := fst (shl_align mp ep ez)) in *.
    clearbody a1 a2.
    change (Zpos a1 + Zpos a2) with (Zpos (a1 + a2)).
    cbn [binary_normalize].
    (* the exact sum, in units of 2^-1074 *)
    assert (HK : Zpos (a1 + a2) * 2 ^ (ez - -1074) = 10000000 * 2 ^ 1074 + kp).
    { assert (H1 : 2 ^ (-29 - ez) * 2 ^ (ez - -1074) = 2 ^ 1045)
        by (rewrite <- pow2_split by lia; f_equal; lia).
      assert (H2 : 2 ^ (ep - ez) * 2 ^ (ez - -1074) = 2 ^ (ep - -1074))
        by (rewrite <- pow2_split by lia; f_equal; lia).
      rewrite Pos2Z.inj_add, Ha1, Ha2, Hk, <- H2.
      transitivity (Zpos ten * (2 ^ (-29 - ez) * 2 ^ (ez - -1074))
                    + Zpos mp * (2 ^ (ep - ez) * 2 ^ (ez - -1074))); [ring|].
      rewrite H1. apply (f_equal (fun x => x + _)). reflexivity. }
    clear Ha1 Ha2 Hk.
    set (S := (a1 + a2)%positive) in *. clearbody S. clear a1 a2.
    pose proof (binary_round_units S ez (-1074)) as Hround.
    cbn zeta in Hround. cbn [Zdigits2] in Hround. rewrite fexp_eq in Hround.
    destruct (digits2_bounds S) as [Hdlo Hdhi].
    set (d := Zpos (digits2_pos S)) in *.
    assert (Hdpos : 0 < d) by (unfold d; lia).
    clearbody d.
    assert (HT : 0 < 2 ^ (ez - -1074)) by (apply pow2_pos; lia).
    remember (2 ^ (ez - -1074)) as T eqn:HTdef.
    (* the binade of the sum *)
    assert (HA : 0 < 2 ^ 1045) by (apply pow2_pos; lia).
    assert (Hd : 24 <= d + ez <= 27).
    { assert (Hlo : Zpos S * T < 2 ^ d * T)
        by (apply Z.mul_lt_mono_pos_r; [exact HT | exact Hdhi]).
      assert (Hhi : 2 ^ (d - 1) * T <= Zpos S * T).
      { apply Z.mul_le_mono_nonneg_r; [apply Z.lt_le_incl, HT | exact Hdlo]. }
      rewrite HK in Hlo, Hhi.
      rewrite HTdef, <- pow2_split in Hlo, Hhi by lia.
      change (2 ^ 1048) with (2 ^ 3 * 2 ^ 1045) in Hkp.
      change (2 ^ 1074) with (2 ^ 29 * 2 ^ 1045) in Hlo, Hhi.
      destruct (Z.le_gt_cases (d + ez) 23) as [Hc|Hc].
      - assert (Hp : 2 ^ (d + (ez - -1074)) <= 2 ^ 1097)
          by (apply Z.pow_le_mono_r; lia).
        change (2 ^ 1097) with (2 ^ 52 * 2 ^ 1045) in Hp.
        unfold nine in Hkp. set (A := 2 ^ 1045) in *. clearbody A.
        set (W := 2 ^ (d + (ez - -1074))) in *. clearbody W.
        exfalso. clear - Hlo Hp Hkp HA. lia.
      - destruct (Z.le_gt_cases 28 (d + ez)) as [Hc'|Hc']; [|lia].
        assert (Hp : 2 ^ 1101 <= 2 ^ (d - 1 + (ez - -1074)))
          by (apply Z.pow_le_mono_r; lia).
        change (2 ^ 1101) with (2 ^ 56 * 2 ^ 1045) in Hp.
        unfold nine in Hkp. set (A := 2 ^ 1045) in *. clearbody A.
        set (W := 2 ^ (d - 1 + (ez - -1074))) in *. clearbody W.
        exfalso. clear - Hhi Hp Hkp HA. lia. }
    clear Hdlo Hdhi.
    replace (Z.max (d + ez - 53) (-1074)) with (d + ez - 53) in Hround by lia.
    destruct Hround as (m2 & Hu & Hm2 & Hlow & Hup); try lia.
    apply units_rescale with (u' := -29) in Hu; [|lia].
    exists (m2 * 2 ^ (d + ez - 53 - -29)). split; [exact Hu|].
    rewrite HK in Hlow, Hup.
    clear Hu HK HTdef HT T.
    change (2 ^ 53) with 9007199254740992 in Hm2.
    change (2 ^ 1048) with (2 ^ 3 * 2 ^ 1045) in Hkp.
    change (2 ^ 1074) with (2 ^ 29 * 2 ^ 1045) in Hlow, Hup.
    unfold nine in Hkp.
    assert (Hcase : d + ez = 24 \/ d + ez = 25 \/ d + ez = 26 \/ d + ez = 27)
      by lia.
    clear Hd.
    destruct Hcase as [Hc | [Hc | [Hc | Hc]]]; rewrite Hc in *; clear Hc.
    + change (24 - 53 - -1074) with 1045 in Hlow, Hup.
      change (24 - 53 - -29) with 0.
      specialize (Hlow (10000000 * 2 ^ 29)).
      set (A := 2 ^ 1045) in *. clearbody A. clear Hup.
      lia.
    + change (25 - 53 - -1074) with (1 + 1045) in Hlow, Hup.
      change (25 - 53 - -29) with 1.
      rewrite pow2_split in Hlow, Hup by lia.
      specialize (Hlow (10000000 * 2 ^ 28)).
      set (A := 2 ^ 1045) in *. clearbody A. clear Hup.
      lia.
    + change (26 - 53 - -1074) with (2 + 1045) in Hlow, Hup.
      change (26 - 53 - -29) with 2.
      rewrite pow2_split in Hlow, Hup by lia.
      specialize (Hlow (10000000 * 2 ^ 27)).
      set (A := 2 ^ 1045) in *. clearbody A. clear Hup.
      lia.
    + (* the top binade: the sum rounds below 100000000 *)
      change (27 - 53 - -1074) with (3 + 1045) in Hlow, Hup.
      change (27 - 53 - -29) with 3.
      rewrite pow2_split in Hlow, Hup by lia.
      specialize (Hlow (10000000 * 2 ^ 26)).
      specialize (Hup (100000000 * 2 ^ 26 - 1)).
      set (A := 2 ^ 1045) in *. clearbody A.
      lia.
Qed.

(** A whole number of units that is a multiple of [2^-u] is an integer. *)
Lemma integer_of_units u x k :
  units u x = Some k -> u <= 0 -> k mod 2 ^ (- u) = 0 ->
  integer_value x = Some (k / 2 ^ (- u)).
Proof.
  intros Hx Hu Hk.
  destruct x as [s|s| |s m e]; cbn [units] in Hx; try discriminate Hx.
  - assert (k = 0) by congruence. subst k. reflexivity.
  - destruct s; [discriminate Hx|].
    destruct (u <=? e) eqn:Hue; [|discriminate Hx]. apply Z.leb_le in Hue.
    assert (k = Zpos m * 2 ^ (e - u)) by congruence. subst k. clear Hx.
    cbn [integer_value cond_Zopp].
    destruct (0 <=? e) eqn:He.
    + apply Z.leb_le in He.
      replace (e - u) with (e + - u) by lia.
      rewrite pow2_split, Z.mul_assoc, Z.div_mul by
        (try lia; apply Z.neq_sym, Z.lt_neq, pow2_pos; lia).
      reflexivity.
    + apply Z.leb_gt in He.
      assert (HU : 0 < 2 ^ (- e)) by (apply pow2_pos; lia).
      assert (HT : 0 < 2 ^ (e - u)) by (apply pow2_pos; lia).
      assert (Hsplit : 2 ^ (- u) = 2 ^ (- e) * 2 ^ (e - u))
        by (rewrite <- pow2_split by lia; f_equal; lia).
      rewrite Hsplit in Hk |- *.
      rewrite Z.mul_mod_distr_r in Hk by lia.
      assert (Hm : Zpos m mod 2 ^ (- e) = 0) by nia.
      rewrite Hm, Z.eqb_refl, Z.div_mul_cancel_r by lia. reflexivity.
Qed.

(** [Math.floor] of a number between 1 and 2^27 is the integer below it. *)
Lemma floor_units x ks :
  units (-29) x = Some ks ->
  2 ^ 29 <= ks < 2 ^ 56 ->
  integer_value (Math_floor x) = Some (ks / 2 ^ 29).
Proof.
  intros Hx Hks.
  destruct x as [s|s| |s m e]; cbn [units] in Hx; try discriminate Hx.
  - assert (ks = 0) by congruence. subst ks. cbn in Hks. lia.
  - destruct s; [discriminate Hx|].
    destruct (-29 <=? e) eqn:Hue; [|discriminate Hx]. apply Z.leb_le in Hue.
    assert (Hk : ks = Zpos m * 2 ^ (e - -29)) by congruence. clear Hx.
    cbn [Math_floor cond_Zopp].
    destruct (0 <=? e) eqn:He.
    + apply Z.leb_le in He.
      change (2 ^ 29) with (2 ^ (- -29)).
      apply (integer_of_units (-29)); [|lia|].
      * cbn [units]. replace (-29 <=? e) with true
          by (symmetry; apply Z.leb_le; lia). congruence.
      * rewrite Hk. replace (e - -29) with (e + 29) by lia.
        rewrite pow2_split, Z.mul_assoc by lia. apply Z.mod_mul.
        cbn. lia.
    + apply Z.leb_gt in He.
      rewrite Z.shiftr_div_pow2 by lia.
      assert (HU : 0 < 2 ^ (- e)) by (apply pow2_pos; lia).
      assert (HT : 0 < 2 ^ (e - -29)) by (apply pow2_pos; lia).
      assert (Hsplit : 2 ^ 29 = 2 ^ (- e) * 2 ^ (e - -29))
        by (rewrite <- pow2_split by lia; f_equal; lia).
      assert (Hq : ks / 2 ^ 29 = Zpos m / 2 ^ (- e)).
      { rewrite Hk, Hsplit. apply Z.div_mul_cancel_r; lia. }
      rewrite Hq.
      assert (Hq1 : 1 <= ks / 2 ^ 29 < 2 ^ 27).
      { split.
        - apply Z.div_le_lower_bound; [reflexivity | lia].
        - apply Z.div_lt_upper_bound; [reflexivity|].
          change (2 ^ 29 * 2 ^ 27) with (2 ^ 56). lia. }
      rewrite Hq in Hq1. clear Hq Hk Hsplit Hks HT HU.
      set (q := Zpos m / 2 ^ (- e)) in *. clearbody q.
      destruct q as [|qp|qp]; try lia.
      cbn [binary_normalize].
      pose proof (binary_round_units qp 0) as Hround.
      cbn zeta in Hround. cbn [Zdigits2] in Hround. rewrite fexp_eq in Hround.
      assert (Hd : Zpos (digits2_pos qp) <= 27) by (apply digits2_le; lia).
      assert (Hd0 : 0 < Zpos (digits2_pos qp)) by lia.
      set (d := Zpos (digits2_pos qp)) in *. clearbody d.
      replace (Z.max (d + 0 - 53) (-1074)) with (d - 53) in Hround by lia.
      destruct (Hround (d - 53)) as (m2 & Hu & _ & Hlow & Hup); try lia.
      rewrite Z.sub_diag, Z.pow_0_r in Hlow, Hup.
      specialize (Hlow (Zpos qp * 2 ^ (0 - (d - 53))) ltac:(lia)).
      specialize (Hup (Zpos qp * 2 ^ (0 - (d - 53))) ltac:(lia)).
      assert (Hm2 : m2 = Zpos qp * 2 ^ (- (d - 53)))
        by (replace (- (d - 53)) with (0 - (d - 53)) by lia; lia).
      rewrite Hm2 in Hu.
      rewrite (integer_of_units _ _ _ Hu); [| lia | apply Z.mod_mul].
      * rewrite Z.div_mul; [reflexivity|].
        apply Z.neq_sym, Z.lt_neq, pow2_pos. lia.
      * apply Z.neq_sym, Z.lt_neq, pow2_pos. lia.
Qed.

End Binary64.

(** ** Printing an integer *)

Module Decimal.

Local Open Scope N_scope.

Lemma digit_char_code d : d < 10 -> N_of_ascii (digit_char d) = 48 + d.
Proof.
  intros H. unfold digit_char. apply N_ascii_embedding. lia.
Qed.

Lemma numeral_from_digit d s acc :
  d < 10 ->
  numeral_from (String (digit_char d) s) acc = numeral_from s (10 * acc + d).
Proof.
  intros H. cbn [numeral_from]. rewrite digit_char_code by assumption.
  replace ((48 <=? 48 + d) && (48 + d <=? 57))%bool with true.
  - f_equal. lia.
  - symmetry. apply andb_true_iff. split; apply N.leb_le; lia.
Qed.

Lemma has_digits_div k n :
  has_digits (S k) n -> has_digits k (n / 10) /\ n / 10 <> 0.
Proof.
  unfold has_digits. intros [Hhi [Hk | Hlo]]; [discriminate|].
  rewrite !Nat2N.inj_succ, !N.pow_succ_r' in *.
  assert (H10 : 0 < 10 ^ N.of_nat k) by (apply N.neq_0_lt_0, N.pow_nonzero; lia).
  assert (Hlo' : 10 ^ N.of_nat k <= n / 10).
  { apply N.div_le_lower_bound; lia. }
  split; [split|].
  - apply N.Div0.div_lt_upper_bound; lia.
  - destruct k as [|k]; [now left | right].
    rewrite Nat2N.inj_succ, N.pow_succ_r' in *. exact Hlo'.
  - lia.
Qed.

Lemma has_digits_0 n : has_digits 0 n -> n / 10 = 0.
Proof.
  unfold has_digits. cbn. intros [Hhi _]. apply N.div_small. exact Hhi.
Qed.

(** With enough fuel, a number of [k + 1] digits prints as [k + 1]
    characters in front of [acc], and reads back as itself. *)
Lemma digits_from_spec k : forall fuel n acc,
  has_digits k n -> (k < fuel)%nat ->
  String.length (digits_from fuel n acc) = (S k + String.length acc)%nat /\
  forall a,
    numeral_from (digits_from fuel n acc) a =
    numeral_from acc (a * 10 ^ N.of_nat (S k) + n).
Proof.
  induction k as [|k IH]; intros fuel n acc Hn Hfuel;
    (destruct fuel as [|fuel]; [lia|]); cbn [digits_from].
  - rewrite (has_digits_0 n Hn). cbn [N.eqb String.length]. split; [reflexivity|].
    intros a. rewrite numeral_from_digit by (apply N.mod_lt; lia).
    f_equal. rewrite N.mod_small by (destruct Hn as [Hn _]; exact Hn).
    change (N.of_nat 1) with 1. rewrite N.pow_1_r. lia.
  - destruct (has_digits_div k n Hn) as [Hdiv Hnz].
    apply N.eqb_neq in Hnz. rewrite Hnz.
    destruct (IH fuel (n / 10) (String (digit_char (n mod 10)) acc) Hdiv
                ltac:(lia)) as [Hlen Hval].
    split; [rewrite Hlen; cbn [String.length]; lia|].
    intros a. rewrite Hval, numeral_from_digit by (apply N.mod_lt; lia).
    f_equal. rewrite (Nat2N.inj_succ (S k)), N.pow_succ_r'.
    pose proof (N.div_mod n 10 ltac:(lia)). lia.
Qed.

Lemma digits_from_all_digits fuel : forall n acc,
  all_digits acc = true -> all_digits (digits_from fuel n acc) = true.
Proof.
  induction fuel as [|fuel IH]; intros n acc Hacc; cbn [digits_from];
    [exact Hacc|].
  assert (Hc : all_digits (String (digit_char (n mod 10)) acc) = true).
  { cbn [all_digits]. rewrite digit_char_code by (apply N.mod_lt; lia).
    rewrite Hacc, andb_true_r. apply andb_true_iff.
    pose proof (N.mod_lt n 10 ltac:(lia)) as Hlt.
    set (r := n mod 10) in *. clearbody r.
    split; apply N.leb_le; lia. }
  destruct (n / 10 =? 0); [exact Hc | now apply IH].
Qed.

(** A number from 10000000 to 99999999 prints as eight digits. *)
Lemma decimal_eight n :
  10000000 <= n <= 99999999 ->
  String.length (decimal n) = 8%nat /\
  all_digits (decimal n) = true /\
  numeral (decimal n) = Some n.
Proof.
  intros Hn. unfold decimal.
  assert (Hlog : 23 <= N.log2 n).
  { change 23 with (N.log2 (2 ^ 23)). apply N.log2_le_mono. cbn. lia. }
  assert (Hd : has_digits 7 n).
  { unfold has_digits. cbn. split; [lia | right; lia]. }
  destruct (digits_from_spec 7 (S (N.to_nat (N.log2 n))) n "" Hd ltac:(lia))
    as [Hlen Hval].
  split; [exact Hlen|]. split; [now apply digits_from_all_digits|].
  assert (Hnum : numeral (digits_from (S (N.to_nat (N.log2 n))) n "") =
                 numeral_from (digits_from (S (N.to_nat (N.log2 n))) n "") 0).
  { destruct (digits_from (S (N.to_nat (N.log2 n))) n "");
      [discriminate Hlen | reflexivity]. }
  rewrite Hnum, Hval. reflexivity.
Qed.

End Decimal.

(** ** Booking: what the handler does *)

Section Booking.

Context (rt : Runtime).

Local Ltac run_handler :=
  unfold bookTicket_handler, try_catch, bind, lift, ret, throw,
    tickets_insertOne.

(** A booking that passes the checks writes its ticket and answers with it. *)
Lemma bookTicket_success env req st oid x ts :
  supplied (get (body req) "applicantId") ->
  supplied (get (body req) "source") ->
  supplied (get (body req) "destination") ->
  supplied (get (body req) "paymentType") ->
  ObjectId_new rt (get (body req) "applicantId") = inl oid ->
  fare_of rt req = inl x ->
  tickets st = Some ts ->
  store_error env = None ->
  bookTicket_handler rt env req st =
    (booked (ticket_of env req oid x),
     {| applications := applications st;
        tickets := Some (ts ++ [ticket_of env req oid x]) |}).
Proof.
  unfold supplied, fare_of. intros Ha Hs Hd Hp Hoid Hx Hts Herr.
  run_handler. rewrite Ha, Hs, Hd, Hp, Hoid. cbn. rewrite Hx. cbn.
  rewrite Hts, Herr. reflexivity.
Qed.

(** A booking whose fare cannot be computed answers with the error and
    writes nothing. *)
Lemma bookTicket_fare_throws env req st oid msg :
  supplied (get (body req) "applicantId") ->
  supplied (get (body req) "source") ->
  supplied (get (body req) "destination") ->
  supplied (get (body req) "paymentType") ->
  ObjectId_new rt (get (body req) "applicantId") = inl oid ->
  fare_of rt req = inr msg ->
  bookTicket_handler rt env req st = (failure msg, st).
Proof.
  unfold supplied, fare_of. intros Ha Hs Hd Hp Hoid Hx.
  run_handler. rewrite Ha, Hs, Hd, Hp, Hoid. cbn. rewrite Hx. reflexivity.
Qed.

(** A booking leaves the state as it was, or is one that went through. *)
Lemma bookTicket_cases env req st :
  snd (bookTicket_handler rt env req st) = st \/
  exists oid x ts,
    ObjectId_new rt (get (body req) "applicantId") = inl oid /\
    fare_of rt req = inl x /\
    tickets st = Some ts /\
    snd (bookTicket_handler rt env req st) =
      {| applications := applications st;
         tickets := Some (ts ++ [ticket_of env req oid x]) |}.
Proof.
  unfold fare_of. run_handler.
  destruct (truthy (get (body req) "applicantId")); [|now left].
  destruct (truthy (get (body req) "source")); [|now left].
  destruct (truthy (get (body req) "destination")); [|now left].
  destruct (truthy (get (body req) "paymentType")); [|now left].
  cbn [negb orb].
  destruct (ObjectId_new rt (get (body req) "applicantId")) as [oid|msg] eqn:Hoid;
    [|now left].
  cbn.
  destruct (fare rt (get (body req) "paymentType") (get (body req) "amount"))
    as [x|msg] eqn:Hx; [|now left].
  cbn.
  destruct (tickets st) as [ts|] eqn:Hts; [|now left].
  destruct (store_error env); [now left|].
  right. exists oid, x, ts. cbn. auto.
Qed.

Lemma app_one_neq {A} (l : list A) (x : A) : l <> l ++ [x].
Proof.
  intros H. apply (f_equal (@List.length A)) in H.
  rewrite length_app in H. cbn in H. lia.
Qed.

(** The ticket a booking creates is the one assembled from the request. *)
Lemma ticket_created_inv env req st d :
  ticket_created st (snd (bookTicket_handler rt env req st)) d ->
  exists oid x,
    ObjectId_new rt (get (body req) "applicantId") = inl oid /\
    fare_of rt req = inl x /\
    d = ticket_of env req oid x.
Proof.
  intros (ts & Hts & Hts').
  destruct (bookTicket_cases env req st)
    as [Hsame | (oid & x & ts' & Hoid & Hx & Hts1 & Hst')].
  - rewrite Hsame, Hts in Hts'. injection Hts' as Hts'.
    now apply app_one_neq in Hts'.
  - rewrite Hst' in Hts'. cbn in Hts'. rewrite Hts in Hts1.
    injection Hts1 as <-. injection Hts' as Hts'.
    apply app_inv_head in Hts'. injection Hts' as <-.
    now exists oid, x.
Qed.

Lemma ticket_amount env req oid x :
  get (ticket_of env req oid x) "amount" = JNumber x.
Proof. reflexivity. Qed.

(** The fare is the coerced amount for "PAID", and 0 otherwise. *)
Lemma fare_paid amount : fare rt (JString "PAID") amount = Number rt amount.
Proof. reflexivity. Qed.

Lemma fare_unpaid paymentType amount :
  paymentType <> JString "PAID" ->
  fare rt paymentType amount = inl (of_Z 0).
Proof.
  intros Hp. unfold fare.
  destruct (strict_eq_string paymentType "PAID") eqn:E; [|reflexivity].
  destruct paymentType; cbn in E; try discriminate E.
  apply String.eqb_eq in E. now subst.
Qed.

(** [Number] throws on no primitive value. *)
Lemma Number_primitive v :
  primitive v = true -> exists x, Number rt v = inl x.
Proof.
  destruct v as [| |[|]| | | | | |]; cbn; intros H;
    try discriminate H; eauto.
Qed.

Lemma strict_eq_string_true v s :
  strict_eq_string v s = true <-> v = JString s.
Proof.
  destruct v; cbn; try (split; [discriminate | intros H; discriminate H]).
  rewrite String.eqb_eq. split; [now intros -> | now intros [= ->]].
Qed.

End Booking.

(** ** Issuance and lookup: what the handlers do *)

Section Issuance.

Context (rt : Runtime).

Local Ltac run_handler :=
  unfold apply_handler, try_catch, bind, lift, ret, throw,
    applications_insertOne.

(** An issuance writes its record and answers with the identifiers. *)
Lemma apply_success env req st apps qr :
  applications st = Some apps ->
  QRCode_toDataURL rt (generateUniquePassId rt env) = inl qr ->
  store_error env = None ->
  apply_handler rt env req st =
    (issued rt env qr,
     {| applications := Some (apps ++ [applicant_of rt env req qr]);
        tickets := tickets st |}).
Proof.
  intros Happs Hqr Herr. run_handler.
  rewrite Happs, Hqr. cbn. rewrite Happs, Herr. reflexivity.
Qed.

(** An issuance leaves the state as it was, or is one that went through. *)
Lemma apply_cases env req st :
  snd (apply_handler rt env req st) = st \/
  exists qr apps,
    QRCode_toDataURL rt (generateUniquePassId rt env) = inl qr /\
    applications st = Some apps /\
    snd (apply_handler rt env req st) =
      {| applications := Some (apps ++ [applicant_of rt env req qr]);
         tickets := tickets st |}.
Proof.
  run_handler.
  destruct (applications st) as [apps|] eqn:Happs; [|now left].
  destruct (QRCode_toDataURL rt (generateUniquePassId rt env)) as [qr|msg] eqn:Hqr;
    [|now left].
  cbn. rewrite Happs.
  destruct (store_error env); [now left|].
  right. exists qr, apps. cbn. auto.
Qed.

(** The record an issuance stores is the one assembled from the request. *)
Lemma applicant_stored_inv env req st d :
  applicant_stored st (snd (apply_handler rt env req st)) d ->
  exists qr, d = applicant_of rt env req qr.
Proof.
  intros (apps & Happs & Happs').
  destruct (apply_cases env req st) as [Hsame | (qr & apps' & _ & Happs1 & Hst')].
  - rewrite Hsame, Happs in Happs'. injection Happs' as Happs'.
    now apply app_one_neq in Happs'.
  - rewrite Hst' in Happs'. cbn in Happs'. rewrite Happs in Happs1.
    injection Happs1 as <-. injection Happs' as Happs'.
    apply app_inv_head in Happs'. injection Happs' as <-.
    now exists qr.
Qed.

Lemma applicant_phone env req qr :
  get (applicant_of rt env req qr) "phone" = phoneNumber (body req).
Proof. reflexivity. Qed.

Lemma applicant_whatsapp env req qr :
  get (applicant_of rt env req qr) "whatsapp" =
    js_or (get (body req) "whatsapp") (phoneNumber (body req)).
Proof. reflexivity. Qed.

Lemma applicant_number env req qr :
  get (applicant_of rt env req qr) "number" =
    js_or (get (body req) "number") (phoneNumber (body req)).
Proof. reflexivity. Qed.

Lemma applicant_passId env req qr :
  get (applicant_of rt env req qr) "passId" =
    JString (generateUniquePassId rt env).
Proof. reflexivity. Qed.

Lemma applicant_id env req qr :
  get (applicant_of rt env req qr) "_id" = JObjectId (fresh_id env).
Proof. reflexivity. Qed.

End Issuance.

(** A value that is not truthy matches no non-empty string in a query. *)
Lemma falsy_is_not_string (k q : string) (d : Doc) :
  truthy (get d k) = false -> q <> "" -> field_is k q d = false.
Proof.
  unfold field_is. intros Hf Hq.
  destruct (get d k) as [| |b|x|s|t|o|l|fs]; cbn in *; try reflexivity;
    try discriminate.
  apply negb_false_iff in Hf. apply String.eqb_eq in Hf. subst s.
  apply String.eqb_neq. congruence.
Qed.

Lemma find_none_iff {A} (f : A -> bool) (l : list A) :
  find f l = None <-> forall x, In x l -> f x = false.
Proof.
  split; [apply find_none|].
  induction l as [|a l IH]; cbn; intros H; [reflexivity|].
  rewrite (H a (or_introl eq_refl)). apply IH. intros x Hx. apply H. now right.
Qed.

Lemma find_app_last {A} (f : A -> bool) (l : list A) (x : A) :
  find f (l ++ [x]) =
    match find f l with
    | Some a => Some a
    | None => if f x then Some x else None
    end.
Proof.
  induction l as [|a l IH]; cbn; [reflexivity|].
  destruct (f a); [reflexivity | exact IH].
Qed.

Section BookingClaims.

Context (rt : Runtime).

(** C6. A booking in which [applicantId], [source], [destination] or
    [paymentType] is absent or empty answers [success: false] ("Missing
    fields") and leaves the server state, hence the ticket store, as it
    was. *)
Theorem bookTicket_missing_fields env req st :
  missing (get (body req) "applicantId") \/
  missing (get (body req) "source") \/
  missing (get (body req) "destination") \/
  missing (get (body req) "paymentType") ->
  bookTicket_handler rt env req st =
    ({| status := 200;
        json := JObject [ ("success", JBool false);
                          ("msg", JString "Missing fields") ] |}, st) /\
  success_of (fst (bookTicket_handler rt env req st)) = JBool false /\
  tickets (snd (bookTicket_handler rt env req st)) = tickets st /\
  forall d, ~ ticket_created st (snd (bookTicket_handler rt env req st)) d.
Proof.
  unfold missing. intros H.
  assert (E : bookTicket_handler rt env req st =
    ({| status := 200;
        json := JObject [ ("success", JBool false);
                          ("msg", JString "Missing fields") ] |}, st)).
  { unfold bookTicket_handler, try_catch, ret.
    destruct H as [H | [H | [H | H]]]; rewrite H; cbn [negb orb];
      rewrite ?orb_true_r; reflexivity. }
  rewrite E. repeat split; try reflexivity.
  intros d (ts & Hts & Hts'). cbn in Hts'. rewrite Hts in Hts'.
  injection Hts' as Hts'. now apply app_one_neq in Hts'.
Qed.

(** C3. When [paymentType] is anything but the string "PAID", the ticket
    a booking creates has amount 0, whatever amount the caller sent. *)
Theorem bookTicket_unpaid_amount_zero env req st d :
  get (body req) "paymentType" <> JString "PAID" ->
  ticket_created st (snd (bookTicket_handler rt env req st)) d ->
  get d "amount" = JNumber pzero.
Proof.
  intros Hp Hd.
  apply ticket_created_inv in Hd. destruct Hd as (oid & x & _ & Hx & ->).
  rewrite ticket_amount. unfold fare_of in Hx.
  rewrite (fare_unpaid rt _ _ Hp) in Hx.
  assert (E : x = of_Z 0) by congruence.
  rewrite E. reflexivity.
Qed.

(** C2, amended. When [paymentType] is "PAID", the ticket a booking
    creates stores [Number(amount)] as it is, without clamping: the
    coercion has yielded a number [x], and [x] is what is stored; a numeric
    amount [n] is stored as [n], whatever its sign. *)
Theorem bookTicket_paid_amount_coerced env req st d :
  get (body req) "paymentType" = JString "PAID" ->
  ticket_created st (snd (bookTicket_handler rt env req st)) d ->
  exists x,
    Number rt (get (body req) "amount") = inl x /\
    get d "amount" = JNumber x /\
    (forall n, get (body req) "amount" = JNumber n ->
               get d "amount" = JNumber n).
Proof.
  intros Hp Hd.
  apply ticket_created_inv in Hd. destruct Hd as (oid & x & _ & Hx & ->).
  unfold fare_of in Hx. rewrite Hp, fare_paid in Hx.
  exists x. rewrite ticket_amount.
  split; [exact Hx|]. split; [reflexivity|].
  intros n Hn. rewrite Hn in Hx. cbn in Hx. congruence.
Qed.

(** C9, amended. Take a booking with [applicantId], [source],
    [destination] supplied and [paymentType] "PAID", for which
    [new ObjectId(applicantId)] does not throw and the ticket store
    answers.  The amount is not validated, only coerced:
    - when [Number(amount)] yields [x], the booking answers
      [success: true] and writes one ticket, whose amount is [x];
    - when [Number(amount)] throws, which only an object can make it do,
      the booking answers 500 with the error's message and writes nothing;
    - an amount that is no object always goes through;
    - an amount that is absent, or a string that reads as no number, goes
      through with amount NaN; [null] does with amount 0. *)
Theorem bookTicket_amount_not_validated env req st oid ts :
  supplied (get (body req) "applicantId") ->
  supplied (get (body req) "source") ->
  supplied (get (body req) "destination") ->
  get (body req) "paymentType" = JString "PAID" ->
  ObjectId_new rt (get (body req) "applicantId") = inl oid ->
  tickets st = Some ts ->
  store_error env = None ->
  let went_through x :=
    exists d,
      bookTicket_handler rt env req st =
        (booked d,
         {| applications := applications st; tickets := Some (ts ++ [d]) |}) /\
      ticket_created st (snd (bookTicket_handler rt env req st)) d /\
      get d "amount" = JNumber x in
  (forall x, Number rt (get (body req) "amount") = inl x -> went_through x) /\
  (forall msg,
     Number rt (get (body req) "amount") = inr msg ->
     primitive (get (body req) "amount") = false /\
     bookTicket_handler rt env req st = (failure msg, st)) /\
  (primitive (get (body req) "amount") = true ->
   exists x, went_through x) /\
  (get (body req) "amount" = JUndefined -> went_through NaN) /\
  (forall s,
     get (body req) "amount" = JString s ->
     StringToNumber rt s = NaN -> went_through NaN) /\
  (get (body req) "amount" = JNull -> went_through pzero).
Proof.
  intros Ha Hs Hd Hp Hoid Hts Herr went_through.
  assert (Hsup : supplied (get (body req) "paymentType"))
    by (rewrite Hp; reflexivity).
  assert (Hfare : fare_of rt req = Number rt (get (body req) "amount"))
    by (unfold fare_of; rewrite Hp; apply fare_paid).
  assert (Hgo : forall x,
            Number rt (get (body req) "amount") = inl x -> went_through x).
  { intros x Hx. rewrite <- Hfare in Hx.
    exists (ticket_of env req oid x).
    rewrite (bookTicket_success rt env req st oid x ts
               Ha Hs Hd Hsup Hoid Hx Hts Herr).
    split; [reflexivity|]. split; [|reflexivity].
    exists ts. now split. }
  split; [exact Hgo|]. split.
  { intros msg Hmsg. split.
    - destruct (primitive (get (body req) "amount")) eqn:E; [|reflexivity].
      destruct (Number_primitive rt _ E) as (x & Hx). congruence.
    - rewrite <- Hfare in Hmsg.
      exact (bookTicket_fare_throws rt env req st oid msg
               Ha Hs Hd Hsup Hoid Hmsg). }
  split.
  { intros E. destruct (Number_primitive rt _ E) as (x & Hx).
    exists x. now apply Hgo. }
  split; [intros E; apply Hgo; rewrite E; reflexivity|].
  split; [|intros E; apply Hgo; rewrite E; reflexivity].
  intros s E HNaN. apply Hgo. rewrite E. cbn. now rewrite HNaN.
Qed.

(** C1, amended. A booking whose [applicantId] makes [new ObjectId] throw
    writes no ticket.  Whether an applicant with that identifier exists is
    not looked up: once [new ObjectId(applicantId)] yields an identifier
    and the fare a number, the ticket is written with that identifier,
    whatever the applicant store holds.  When computing the fare throws,
    no ticket is written either. *)
Theorem bookTicket_reference_not_looked_up env req st :
  (forall msg,
     ObjectId_new rt (get (body req) "applicantId") = inr msg ->
     snd (bookTicket_handler rt env req st) = st) /\
  (forall oid x ts,
     supplied (get (body req) "applicantId") ->
     supplied (get (body req) "source") ->
     supplied (get (body req) "destination") ->
     supplied (get (body req) "paymentType") ->
     ObjectId_new rt (get (body req) "applicantId") = inl oid ->
     fare_of rt req = inl x ->
     tickets st = Some ts ->
     store_error env = None ->
     ticket_created st (snd (bookTicket_handler rt env req st))
       (ticket_of env req oid x) /\
     get (ticket_of env req oid x) "applicantId" = JObjectId oid) /\
  (forall msg,
     fare_of rt req = inr msg ->
     snd (bookTicket_handler rt env req st) = st).
Proof.
  split; [|split].
  - intros msg Hmsg.
    destruct (bookTicket_cases rt env req st)
      as [Hsame | (oid & x & ts & Hoid & _)]; [exact Hsame|].
    rewrite Hmsg in Hoid. discriminate.
  - intros oid x ts Ha Hs Hd Hp Hoid Hx Hts Herr.
    rewrite (bookTicket_success rt env req st oid x ts
               Ha Hs Hd Hp Hoid Hx Hts Herr).
    split; [|reflexivity]. exists ts. now split.
  - intros msg Hmsg.
    destruct (bookTicket_cases rt env req st)
      as [Hsame | (oid & x & ts & _ & Hx & _)]; [exact Hsame|].
    rewrite Hmsg in Hx. discriminate.
Qed.

End BookingClaims.

Section IssuanceClaims.

Context (rt : Runtime).

(** C4. When at least one of [phone], [whatsapp], [number] is supplied
    non-empty, the stored applicant record has as [phone] the first
    supplied one in that order, has [whatsapp] and [number] equal to that
    [phone] where the caller left them out, and has all three non-empty. *)
Theorem apply_phone_fields_backfilled env req st d :
  supplied (get (body req) "phone") \/
  supplied (get (body req) "whatsapp") \/
  supplied (get (body req) "number") ->
  applicant_stored st (snd (apply_handler rt env req st)) d ->
  get d "phone" =
    first_supplied (get (body req) "phone") (get (body req) "whatsapp")
      (get (body req) "number") /\
  (missing (get (body req) "whatsapp") ->
   get d "whatsapp" = get d "phone") /\
  (missing (get (body req) "number") ->
   get d "number" = get d "phone") /\
  supplied (get d "phone") /\
  supplied (get d "whatsapp") /\
  supplied (get d "number").
Proof.
  unfold supplied, missing. intros Hsup Hd.
  apply applicant_stored_inv in Hd. destruct Hd as (qr & ->).
  rewrite applicant_phone, applicant_whatsapp, applicant_number.
  unfold phoneNumber, first_supplied, js_or.
  destruct (truthy (get (body req) "phone")) eqn:Hp;
    destruct (truthy (get (body req) "whatsapp")) eqn:Hw;
    destruct (truthy (get (body req) "number")) eqn:Hn;
    rewrite ?Hp, ?Hw, ?Hn;
    repeat split; try reflexivity; try assumption; try discriminate;
    destruct Hsup as [H | [H | H]]; discriminate.
Qed.

(** C10. When none of [phone], [whatsapp], [number] is supplied
    non-empty, issuance still goes through (the store being connected and
    answering, the code being encoded): it answers [success: true] and
    stores a record whose three phone fields are all empty.  No lookup by
    a phone number finds that record. *)
Theorem apply_without_phone env req st apps qr :
  missing (get (body req) "phone") ->
  missing (get (body req) "whatsapp") ->
  missing (get (body req) "number") ->
  applications st = Some apps ->
  QRCode_toDataURL rt (generateUniquePassId rt env) = inl qr ->
  store_error env = None ->
  let st' := snd (apply_handler rt env req st) in
  exists d,
    apply_handler rt env req st =
      (issued rt env qr,
       {| applications := Some (apps ++ [d]); tickets := tickets st |}) /\
    success_of (fst (apply_handler rt env req st)) = JBool true /\
    applicant_stored st st' d /\
    missing (get d "phone") /\
    missing (get d "whatsapp") /\
    missing (get d "number") /\
    (forall q, q <> "" -> phone_query q d = false) /\
    (forall env' q, q <> "" ->
       fst (verify_handler env' q st') = fst (verify_handler env' q st)).
Proof.
  intros Hp Hw Hn Happs Hqr Herr st'. subst st'. unfold missing in *.
  exists (applicant_of rt env req qr).
  rewrite (apply_success rt env req st apps qr Happs Hqr Herr).
  assert (Hphone : truthy (get (applicant_of rt env req qr) "phone") = false).
  { rewrite applicant_phone. unfold phoneNumber, js_or.
    rewrite Hp, Hw. exact Hn. }
  assert (Hwhats : truthy (get (applicant_of rt env req qr) "whatsapp") = false).
  { rewrite applicant_whatsapp. unfold phoneNumber, js_or.
    rewrite Hw, Hp, Hw. exact Hn. }
  assert (Hnum : truthy (get (applicant_of rt env req qr) "number") = false).
  { rewrite applicant_number. unfold phoneNumber, js_or.
    rewrite Hn, Hp, Hw. exact Hn. }
  assert (Hq : forall q, q <> "" ->
                 phone_query q (applicant_of rt env req qr) = false).
  { intros q Hne. unfold phone_query.
    rewrite !falsy_is_not_string by assumption. reflexivity. }
  repeat split; try assumption; try reflexivity.
  - exists apps. now split.
  - intros env' q Hne.
    unfold verify_handler, try_catch, bind, ret, applications_findOne.
    cbn [fst snd applications]. rewrite Happs.
    destruct (store_error env'); [reflexivity|].
    rewrite find_app_last, (Hq q Hne).
    destruct (find (phone_query q) apps); reflexivity.
Qed.

(** C7. With the applicant store connected and answering, a lookup by a
    pass identifier that no record carries answers 404 with
    [success: false], and a lookup by one that some record carries answers
    with the whole first such record; the state is left as it was. *)
Theorem getApplicant_found_or_404 env passId st apps :
  applications st = Some apps ->
  store_error env = None ->
  ((forall d, In d apps -> field_is "passId" passId d = false) ->
   getApplicant_handler env passId st =
     ({| status := 404; json := JObject [ ("success", JBool false) ] |}, st)) /\
  ((exists d, In d apps /\ field_is "passId" passId d = true) ->
   exists a,
     In a apps /\ field_is "passId" passId a = true /\
     find (field_is "passId" passId) apps = Some a /\
     getApplicant_handler env passId st =
       ({| status := 200; json := JObject a |}, st)).
Proof.
  intros Happs Herr.
  unfold getApplicant_handler, try_catch, bind, ret, applications_findOne.
  rewrite Happs, Herr. split.
  - intros Hnone. apply find_none_iff in Hnone. now rewrite Hnone.
  - intros (d & Hin & Hd).
    destruct (find (field_is "passId" passId) apps) as [a|] eqn:Hfind.
    + exists a. destruct (find_some _ _ Hfind) as [Ha1 Ha2]. auto.
    + rewrite (find_none _ _ Hfind d Hin) in Hd. discriminate.
Qed.

(** C5, amended. When no record already in the store carries the pass
    identifier an issuance draws, a later lookup by the identifier it
    returned answers with the record it stored, whose [_id] is the [id]
    it returned. *)
Theorem issued_pass_resolves env env' req st apps qr :
  applications st = Some apps ->
  QRCode_toDataURL rt (generateUniquePassId rt env) = inl qr ->
  store_error env = None ->
  store_error env' = None ->
  (forall d, In d apps ->
     field_is "passId" (generateUniquePassId rt env) d = false) ->
  let r := fst (apply_handler rt env req st) in
  let st' := snd (apply_handler rt env req st) in
  exists passId d,
    success_of r = JBool true /\
    answer r "passId" = JString passId /\
    applicant_stored st st' d /\
    getApplicant_handler env' passId st' =
      ({| status := 200; json := JObject d |}, st') /\
    get d "passId" = JString passId /\
    get d "_id" = answer r "id".
Proof.
  intros Happs Hqr Herr Herr' Hfresh r st'. subst r st'.
  exists (generateUniquePassId rt env), (applicant_of rt env req qr).
  rewrite (apply_success rt env req st apps qr Happs Hqr Herr).
  repeat split.
  - exists apps. now split.
  - unfold getApplicant_handler, try_catch, bind, ret, applications_findOne.
    cbn [fst snd applications]. rewrite Herr', find_app_last.
    apply find_none_iff in Hfresh. rewrite Hfresh.
    unfold field_is at 1. rewrite applicant_passId.
    cbn [is_string]. rewrite String.eqb_refl. reflexivity.
Qed.

End IssuanceClaims.

(** ** The pass identifier *)

Lemma NumberToString_integer (rt : Runtime) (y : number) (n : Z) :
  integer_value y = Some n ->
  (0 < n < 10 ^ 21)%Z ->
  NumberToString rt y = decimal (Z.to_N n).
Proof.
  intros Hy Hn.
  destruct y as [s|s| |s m e]; cbn [integer_value] in Hy; try discriminate Hy.
  - assert (n = 0%Z) by congruence. lia.
  - unfold NumberToString. cbn [integer_value]. rewrite Hy.
    rewrite Z.abs_eq by lia.
    replace (n <? 10 ^ 21)%Z with true by (symmetry; apply Z.ltb_lt; lia).
    replace (n <? 0)%Z with false by (symmetry; apply Z.ltb_ge; lia).
    reflexivity.
Qed.

(** The number [generateUniquePassId] draws is a whole number from
    10000000 to 99999999. *)
Lemma randomNum_range (r : number) :
  unit_interval r = true ->
  exists n : Z,
    (10000000 <= n <= 99999999)%Z /\
    integer_value
      (Math_floor (fadd (of_Z 10000000) (fmul r (of_Z 90000000)))) = Some n.
Proof.
  intros Hr.
  destruct (Binary64.product_units r Hr) as (kp & Hp & Hkp).
  destruct (Binary64.sum_units _ kp Hp Hkp) as (ks & Hs & Hks).
  exists (ks / 2 ^ 29)%Z.
  change (2 ^ 3)%Z with 8%Z in Hks.
  change (2 ^ 26)%Z with 67108864%Z in Hks.
  change (2 ^ 29)%Z with 536870912%Z in *.
  split.
  - split.
    + apply Z.div_le_lower_bound; lia.
    + apply Z.lt_succ_r. apply Z.div_lt_upper_bound; lia.
  - apply (Binary64.floor_units _ ks Hs).
    change (2 ^ 29)%Z with 536870912%Z.
    change (2 ^ 56)%Z with 72057594037927936%Z. lia.
Qed.

(** C8. Whatever [Math.random()] returns in its range, the generator
    returns "TSRTC-" followed by exactly eight decimal digits, which spell
    a number from 10000000 to 99999999. *)
Theorem generateUniquePassId_format (rt : Runtime) (env : Env) :
  unit_interval (random env) = true ->
  exists n : N,
    (10000000 <= n <= 99999999)%N /\
    generateUniquePassId rt env = ("TSRTC-" ++ decimal n)%string /\
    String.length (decimal n) = 8 /\
    all_digits (decimal n) = true /\
    numeral (decimal n) = Some n.
Proof.
  intros Hr.
  destruct (randomNum_range (random env) Hr) as (n & Hn & Hint).
  exists (Z.to_N n).
  assert (Hrange : (10000000 <= Z.to_N n <= 99999999)%N) by lia.
  split; [exact Hrange|]. split.
  - unfold generateUniquePassId.
    rewrite (NumberToString_integer rt _ n Hint); [reflexivity|].
    change (10 ^ 21)%Z with 1000000000000000000000%Z. lia.
  - apply Decimal.decimal_eight. exact Hrange.
Qed.

(** ** The claims at concrete requests *)

Lemma bookTicket_missing_fields_witness :
  bookTicket_handler Sample.rt (Sample.env Sample.half 7)
    (Sample.booking (JString Sample.an_id) (JString "") JUndefined)
    Sample.connected =
  ({| status := 200;
      json := JObject [ ("success", JBool false);
                        ("msg", JString "Missing fields") ] |},
   Sample.connected).
Proof.
  destruct (bookTicket_missing_fields Sample.rt (Sample.env Sample.half 7)
              (Sample.booking (JString Sample.an_id) (JString "") JUndefined)
              Sample.connected) as [Hrun _].
  - right. right. right. reflexivity.
  - exact Hrun.
Defined.

Lemma bookTicket_unpaid_amount_zero_witness :
  get (ticket_of (Sample.env Sample.half 7)
         (Sample.booking (JString Sample.an_id) (JString "FREE") (JString "50"))
         Sample.an_oid pzero) "amount" = JNumber pzero.
Proof.
  apply (bookTicket_unpaid_amount_zero Sample.rt (Sample.env Sample.half 7)
           (Sample.booking (JString Sample.an_id) (JString "FREE") (JString "50"))
           Sample.connected).
  - discriminate.
  - exists []. split; reflexivity.
Defined.

Lemma bookTicket_paid_amount_coerced_witness :
  exists x,
    Number Sample.rt (JString "50") = inl x /\
    get (ticket_of (Sample.env Sample.half 7)
           (Sample.booking (JString Sample.an_id) (JString "PAID")
              (JString "50"))
           Sample.an_oid (of_Z 50)) "amount" = JNumber x.
Proof.
  destruct (bookTicket_paid_amount_coerced Sample.rt (Sample.env Sample.half 7)
              (Sample.booking (JString Sample.an_id) (JString "PAID")
                 (JString "50"))
              Sample.connected
              (ticket_of (Sample.env Sample.half 7)
                 (Sample.booking (JString Sample.an_id) (JString "PAID")
                    (JString "50"))
                 Sample.an_oid (of_Z 50))) as (x & Hx & Hamount & _).
  - reflexivity.
  - exists []. split; reflexivity.
  - exists x. split; [exact Hx | exact Hamount].
Defined.

(** A paid booking for -5 stores -5. *)
Lemma negative_paid_amount_is_stored :
  ~ clamped_fare_claim Sample.rt (Sample.env Sample.half 7)
      (Sample.booking (JString Sample.an_id) (JString "PAID")
         (JNumber Sample.minus_five))
      Sample.connected.
Proof.
  intros H.
  destruct (H eq_refl
              (ticket_of (Sample.env Sample.half 7)
                 (Sample.booking (JString Sample.an_id) (JString "PAID")
                    (JNumber Sample.minus_five))
                 Sample.an_oid Sample.minus_five)) as [_ Hsign].
  - exists []. split; reflexivity.
  - specialize (Hsign Sample.minus_five eq_refl).
    vm_compute in Hsign. discriminate Hsign.
Qed.

Lemma bookTicket_amount_not_validated_witness :
  (exists d,
     bookTicket_handler Sample.rt (Sample.env Sample.half 7)
       (Sample.booking (JString Sample.an_id) (JString "PAID") JUndefined)
       Sample.connected =
       (booked d,
        {| applications := Some []; tickets := Some ([] ++ [d]) |}) /\
     get d "amount" = JNumber NaN) /\
  bookTicket_handler Sample.rt (Sample.env Sample.half 7)
    (Sample.booking (JString Sample.an_id) (JString "PAID")
       Sample.no_number)
    Sample.connected =
    (failure Sample.not_primitive, Sample.connected).
Proof.
  split.
  - destruct (bookTicket_amount_not_validated Sample.rt
                (Sample.env Sample.half 7)
                (Sample.booking (JString Sample.an_id) (JString "PAID")
                   JUndefined)
                Sample.connected Sample.an_oid [])
      as (_ & _ & _ & Habsent & _); try reflexivity.
    destruct (Habsent eq_refl) as (d & Hrun & _ & Hnan).
    exists d. split; [exact Hrun | exact Hnan].
  - destruct (bookTicket_amount_not_validated Sample.rt
                (Sample.env Sample.half 7)
                (Sample.booking (JString Sample.an_id) (JString "PAID")
                   Sample.no_number)
                Sample.connected Sample.an_oid []
                eq_refl eq_refl eq_refl eq_refl eq_refl eq_refl eq_refl)
      as (_ & Hthrows & _).
    exact (proj2 (Hthrows Sample.not_primitive eq_refl)).
Defined.

(** Three paid bookings with the required fields and an amount that is no
    number.  One whose reference is no identifier of the store fails,
    whatever the amount.  One whose amount is [null] goes through with
    amount 0, not NaN.  One whose amount is an object that cannot be
    converted fails, with no ticket written. *)
Lemma amount_outcomes_differ_from_claim :
  ~ unvalidated_amount_claim Sample.rt (Sample.env Sample.half 7)
      (Sample.booking (JString "xyz") (JString "PAID") JUndefined)
      Sample.connected /\
  ~ unvalidated_amount_claim Sample.rt (Sample.env Sample.half 7)
      (Sample.booking (JString Sample.an_id) (JString "PAID") JNull)
      Sample.connected /\
  ~ unvalidated_amount_claim Sample.rt (Sample.env Sample.half 7)
      (Sample.booking (JString Sample.an_id) (JString "PAID")
         Sample.no_number)
      Sample.connected.
Proof.
  split; [|split]; intros H.
  - destruct (H eq_refl eq_refl eq_refl eq_refl I
                (ex_intro _ [] eq_refl) eq_refl) as [Hsuccess _].
    vm_compute in Hsuccess. discriminate Hsuccess.
  - destruct (H eq_refl eq_refl eq_refl eq_refl I
                (ex_intro _ [] eq_refl) eq_refl)
      as [_ (d & (ts & Hts & Hts') & Hamount)].
    vm_compute in Hts. injection Hts as <-.
    vm_compute in Hts'. injection Hts' as <-.
    vm_compute in Hamount. discriminate Hamount.
  - destruct (H eq_refl eq_refl eq_refl eq_refl I
                (ex_intro _ [] eq_refl) eq_refl) as [Hsuccess _].
    vm_compute in Hsuccess. discriminate Hsuccess.
Qed.

Lemma bookTicket_reference_not_looked_up_witness :
  snd (bookTicket_handler Sample.rt (Sample.env Sample.half 7)
         (Sample.booking (JString "xyz") (JString "FREE") JUndefined)
         Sample.connected) = Sample.connected /\
  dereference Sample.rt Sample.connected (JString Sample.an_id) = None /\
  ticket_created Sample.connected
    (snd (bookTicket_handler Sample.rt (Sample.env Sample.half 7)
            (Sample.booking (JString Sample.an_id) (JString "FREE") JUndefined)
            Sample.connected))
    (ticket_of (Sample.env Sample.half 7)
       (Sample.booking (JString Sample.an_id) (JString "FREE") JUndefined)
       Sample.an_oid pzero).
Proof.
  split; [|split; [reflexivity|]].
  - apply (proj1 (bookTicket_reference_not_looked_up Sample.rt
                    (Sample.env Sample.half 7)
                    (Sample.booking (JString "xyz") (JString "FREE") JUndefined)
                    Sample.connected) Sample.invalid_id).
    reflexivity.
  - apply (proj1 (proj2 (bookTicket_reference_not_looked_up Sample.rt
                           (Sample.env Sample.half 7)
                           (Sample.booking (JString Sample.an_id)
                              (JString "FREE") JUndefined)
                           Sample.connected)) Sample.an_oid pzero []);
      reflexivity.
Defined.

(** A booking against an identifier no applicant carries is persisted. *)
Lemma orphan_ticket_is_persisted :
  ~ referential_integrity_claim Sample.rt (Sample.env Sample.half 7)
      (Sample.booking (JString Sample.an_id) (JString "FREE") JUndefined)
      Sample.connected.
Proof.
  intros H. specialize (H eq_refl). vm_compute in H. discriminate H.
Qed.

Lemma apply_phone_fields_backfilled_witness :
  let d := applicant_of Sample.rt (Sample.env Sample.half 1)
             (Sample.application [("whatsapp", JString "9000000001")])
             "data:image/png;base64,TSRTC-55000000" in
  get d "phone" = JString "9000000001" /\
  get d "whatsapp" = JString "9000000001" /\
  get d "number" = JString "9000000001".
Proof.
  intros d.
  destruct (apply_phone_fields_backfilled Sample.rt (Sample.env Sample.half 1)
              (Sample.application [("whatsapp", JString "9000000001")])
              Sample.connected d)
    as (Hphone & _ & Hnumber & _).
  - right. left. reflexivity.
  - exists []. split; reflexivity.
  - split; [exact Hphone|]. split; [reflexivity|].
    rewrite (Hnumber eq_refl). exact Hphone.
Defined.

Lemma apply_without_phone_witness :
  exists d,
    applicant_stored Sample.connected
      (snd (apply_handler Sample.rt (Sample.env Sample.half 1)
              (Sample.application [("phone", JString "")]) Sample.connected))
      d /\
    missing (get d "phone") /\
    phone_query "9000000001" d = false.
Proof.
  destruct (apply_without_phone Sample.rt (Sample.env Sample.half 1)
              (Sample.application [("phone", JString "")]) Sample.connected
              [] "data:image/png;base64,TSRTC-55000000")
    as (d & _ & _ & Hstored & Hphone & _ & _ & Hquery & _); try reflexivity.
  exists d. split; [exact Hstored|]. split; [exact Hphone|].
  apply Hquery. discriminate.
Defined.

Lemma getApplicant_found_or_404_witness :
  getApplicant_handler (Sample.env Sample.half 2) "TSRTC-00000000"
    Sample.issued_once =
    ({| status := 404; json := JObject [ ("success", JBool false) ] |},
     Sample.issued_once) /\
  exists a,
    get a "passId" = JString "TSRTC-55000000" /\
    getApplicant_handler (Sample.env Sample.half 2) "TSRTC-55000000"
      Sample.issued_once =
      ({| status := 200; json := JObject a |}, Sample.issued_once).
Proof.
  pose (record := applicant_of Sample.rt (Sample.env Sample.half 1)
                    (Sample.application [])
                    "data:image/png;base64,TSRTC-55000000").
  split.
  - apply (proj1 (getApplicant_found_or_404 (Sample.env Sample.half 2)
                    "TSRTC-00000000" Sample.issued_once [record]
                    eq_refl eq_refl)).
    intros d [<- | []]. reflexivity.
  - destruct (proj2 (getApplicant_found_or_404 (Sample.env Sample.half 2)
                       "TSRTC-55000000" Sample.issued_once [record]
                       eq_refl eq_refl))
      as (a & Hin & _ & _ & Hrun).
    + exists record. split; [now left | reflexivity].
    + exists a. split; [|exact Hrun].
      destruct Hin as [<- | []]. reflexivity.
Defined.

Lemma issued_pass_resolves_witness :
  exists passId d,
    applicant_stored Sample.connected Sample.issued_once d /\
    getApplicant_handler (Sample.env Sample.half 2) passId Sample.issued_once =
      ({| status := 200; json := JObject d |}, Sample.issued_once) /\
    get d "_id" = JObjectId 1%N.
Proof.
  destruct (issued_pass_resolves Sample.rt (Sample.env Sample.half 1)
              (Sample.env Sample.half 2) (Sample.application [])
              Sample.connected [] "data:image/png;base64,TSRTC-55000000")
    as (passId & d & _ & _ & Hstored & Hrun & _ & Hid);
    try reflexivity.
  - intros d [].
  - exists passId, d. split; [exact Hstored|]. split; [exact Hrun | exact Hid].
Defined.

(** Two issuances that draw the same number: the lookup by the second
    one's pass identifier answers with the first one's record. *)
Lemma duplicate_pass_resolves_to_earlier_record :
  ~ lookup_returns_issued_claim Sample.rt (Sample.env Sample.half 2)
      (Sample.env Sample.half 3) (Sample.application []) Sample.issued_once.
Proof.
  intros H.
  destruct (H eq_refl eq_refl "TSRTC-55000000" eq_refl) as (a & Hrun & Hid).
  vm_compute in Hrun. injection Hrun as <-.
  vm_compute in Hid. discriminate Hid.
Qed.

Lemma generateUniquePassId_format_witness :
  exists n : N,
    (10000000 <= n <= 99999999)%N /\
    generateUniquePassId Sample.rt (Sample.env Sample.half 1) =
      ("TSRTC-" ++ decimal n)%string /\
    String.length (decimal n) = 8 /\
    all_digits (decimal n) = true /\
    numeral (decimal n) = Some n.
Proof.
  apply (generateUniquePassId_format Sample.rt (Sample.env Sample.half 1)).
  reflexivity.
Defined.

(** Both ends of the range are drawn: at 0 and at the largest double
    below 1. *)
Example passId_smallest :
  unit_interval pzero = true /\
  generateUniquePassId Sample.rt (Sample.env pzero 1) = "TSRTC-10000000".
Proof. split; reflexivity. Qed.

Example passId_largest :
  unit_interval Sample.below_one = true /\
  generateUniquePassId Sample.rt (Sample.env Sample.below_one 1) =
    "TSRTC-99999999".
Proof. split; reflexivity. Qed.

(** ** Beyond the claims: what every request does to the store *)

Section Outcomes.

Context (rt : Runtime).

(** X1. [/apply] writes all or nothing: it answers [success: true] with
    status 200 and has appended exactly the assembled record, or it answers
    with status 500, without [success: true], and the state is as it was. *)
Theorem apply_all_or_nothing env req st :
  let r := fst (apply_handler rt env req st) in
  let st' := snd (apply_handler rt env req st) in
  (exists apps qr,
     applications st = Some apps /\
     QRCode_toDataURL rt (generateUniquePassId rt env) = inl qr /\
     store_error env = None /\
     r = issued rt env qr /\
     st' = {| applications := Some (apps ++ [applicant_of rt env req qr]);
              tickets := tickets st |}) \/
  (status r = 500 /\ success_of r <> JBool true /\ st' = st).
Proof.
  cbv zeta.
  destruct (applications st) as [apps|] eqn:Happs.
  - destruct (QRCode_toDataURL rt (generateUniquePassId rt env)) as [qr|msg] eqn:Hqr.
    + destruct (store_error env) as [msg|] eqn:Herr.
      * right. unfold apply_handler, try_catch, bind, lift, ret, throw,
          applications_insertOne.
        rewrite Happs, Hqr. cbn. rewrite Happs, Herr. cbn.
        repeat split. discriminate.
      * left. exists apps, qr.
        rewrite (apply_success rt env req st apps qr Happs Hqr Herr).
        repeat split.
    + right. unfold apply_handler, try_catch, bind, lift, ret, throw.
      rewrite Happs, Hqr. cbn. repeat split. discriminate.
  - right. unfold apply_handler, try_catch, ret. rewrite Happs. cbn.
    repeat split. discriminate.
Qed.

Lemma bookTicket_rejects env req st :
  truthy (get (body req) "applicantId") && truthy (get (body req) "source")
  && truthy (get (body req) "destination")
  && truthy (get (body req) "paymentType") = false ->
  bookTicket_handler rt env req st =
    ({| status := 200;
        json := JObject [ ("success", JBool false);
                          ("msg", JString "Missing fields") ] |}, st).
Proof.
  intros H. unfold bookTicket_handler, try_catch, ret.
  destruct (truthy (get (body req) "applicantId"));
    destruct (truthy (get (body req) "source"));
    destruct (truthy (get (body req) "destination"));
    destruct (truthy (get (body req) "paymentType"));
    try discriminate H; reflexivity.
Qed.

(** X2. [/bookTicket] writes all or nothing, in one of three ways: a
    missing field is answered with status 200 and [success: false]; a
    failure with status 500 and [success: false]; both leave the state as
    it was.  Otherwise the identifier and the fare were computed, the
    answer is [success: true] and carries the very record, [_id] included,
    that was appended to the tickets. *)
Theorem bookTicket_all_or_nothing env req st :
  let r := fst (bookTicket_handler rt env req st) in
  let st' := snd (bookTicket_handler rt env req st) in
  (exists oid x ts,
     ObjectId_new rt (get (body req) "applicantId") = inl oid /\
     fare_of rt req = inl x /\
     tickets st = Some ts /\
     store_error env = None /\
     r = booked (ticket_of env req oid x) /\
     answer r "ticket" = JObject (ticket_of env req oid x) /\
     st' = {| applications := applications st;
              tickets := Some (ts ++ [ticket_of env req oid x]) |}) \/
  ((status r = 200 \/ status r = 500) /\
   success_of r = JBool false /\ st' = st).
Proof.
  cbv zeta.
  destruct (truthy (get (body req) "applicantId") && truthy (get (body req) "source")
            && truthy (get (body req) "destination")
            && truthy (get (body req) "paymentType")) eqn:Hall.
  - apply andb_true_iff in Hall. destruct Hall as [Hall Hp].
    apply andb_true_iff in Hall. destruct Hall as [Hall Hd].
    apply andb_true_iff in Hall. destruct Hall as [Ha Hs].
    destruct (ObjectId_new rt (get (body req) "applicantId")) as [oid|msg] eqn:Hoid.
    + destruct (fare_of rt req) as [x|msg] eqn:Hx.
      * destruct (tickets st) as [ts|] eqn:Hts.
        -- destruct (store_error env) as [msg|] eqn:Herr.
           ++ right. unfold fare_of in Hx.
              unfold bookTicket_handler, try_catch, bind, lift, ret, throw,
                tickets_insertOne.
              rewrite Ha, Hs, Hd, Hp, Hoid. cbn. rewrite Hx. cbn.
              rewrite Hts, Herr. cbn. auto.
           ++ left. exists oid, x, ts.
              rewrite (bookTicket_success rt env req st oid x ts
                         Ha Hs Hd Hp Hoid Hx Hts Herr).
              repeat split.
        -- right. unfold fare_of in Hx.
           unfold bookTicket_handler, try_catch, bind, lift, ret, throw,
             tickets_insertOne.
           rewrite Ha, Hs, Hd, Hp, Hoid. cbn. rewrite Hx. cbn.
           rewrite Hts. cbn. auto.
      * right.
        rewrite (bookTicket_fare_throws rt env req st oid msg
                   Ha Hs Hd Hp Hoid Hx).
        cbn. auto.
    + right. unfold bookTicket_handler, try_catch, bind, lift, ret, throw.
      rewrite Ha, Hs, Hd, Hp, Hoid. cbn. auto.
  - right. rewrite (bookTicket_rejects env req st Hall). cbn. auto.
Qed.

(** X3. How [/apply] fails.  With the applicant collection not connected
    it answers status 500 with [error: "DB not connected"] and no [success]
    member, before anything is drawn or encoded.  When the encoding or the
    insertion rejects, it answers status 500 with [success: false] and the
    message of the rejection.  Nothing is stored in any of these cases. *)
Theorem apply_failures env req st :
  (applications st = None ->
   apply_handler rt env req st =
     ({| status := 500;
         json := JObject [ ("error", JString "DB not connected") ] |}, st)) /\
  (forall apps msg,
     applications st = Some apps ->
     QRCode_toDataURL rt (generateUniquePassId rt env) = inr msg ->
     apply_handler rt env req st = (failure msg, st)) /\
  (forall apps qr msg,
     applications st = Some apps ->
     QRCode_toDataURL rt (generateUniquePassId rt env) = inl qr ->
     store_error env = Some msg ->
     apply_handler rt env req st = (failure msg, st)).
Proof.
  unfold apply_handler, try_catch, bind, lift, ret, throw,
    applications_insertOne.
  split; [|split].
  - intros ->. reflexivity.
  - intros apps msg -> ->. reflexivity.
  - intros apps qr msg Happs -> Herr. rewrite Happs. cbn.
    rewrite ?Happs, Herr. reflexivity.
Qed.

(** X4. How [/bookTicket] fails once the four fields are supplied, in the
    order the handler meets the errors: [new ObjectId(applicantId)] throws;
    else [Number(amount)] throws, which it is only asked to do for "PAID";
    else the ticket collection is not connected, and the call of
    [insertOne] on [undefined] is a TypeError; else the insertion rejects.
    Each time the answer has status 500, [success: false] and the message
    of the error, and nothing is stored. *)
Theorem bookTicket_failures env req st :
  supplied (get (body req) "applicantId") ->
  supplied (get (body req) "source") ->
  supplied (get (body req) "destination") ->
  supplied (get (body req) "paymentType") ->
  (forall msg,
     ObjectId_new rt (get (body req) "applicantId") = inr msg ->
     bookTicket_handler rt env req st = (failure msg, st)) /\
  (forall oid msg,
     ObjectId_new rt (get (body req) "applicantId") = inl oid ->
     fare_of rt req = inr msg ->
     get (body req) "paymentType" = JString "PAID" /\
     Number rt (get (body req) "amount") = inr msg /\
     bookTicket_handler rt env req st = (failure msg, st)) /\
  (forall oid x,
     ObjectId_new rt (get (body req) "applicantId") = inl oid ->
     fare_of rt req = inl x ->
     tickets st = None ->
     bookTicket_handler rt env req st =
       (failure "Cannot read properties of undefined (reading 'insertOne')",
        st)) /\
  (forall oid x ts msg,
     ObjectId_new rt (get (body req) "applicantId") = inl oid ->
     fare_of rt req = inl x ->
     tickets st = Some ts ->
     store_error env = Some msg ->
     bookTicket_handler rt env req st = (failure msg, st)).
Proof.
  intros Ha Hs Hd Hp.
  split; [|split; [|split]].
  - intros msg Hoid. unfold supplied in *.
    unfold bookTicket_handler, try_catch, bind, lift, ret, throw.
    rewrite Ha, Hs, Hd, Hp, Hoid. reflexivity.
  - intros oid msg Hoid Hx.
    assert (Hpaid : get (body req) "paymentType" = JString "PAID").
    { unfold fare_of, fare in Hx.
      destruct (strict_eq_string (get (body req) "paymentType") "PAID") eqn:E;
        [|discriminate Hx].
      now apply strict_eq_string_true in E. }
    split; [exact Hpaid|]. split.
    + unfold fare_of in Hx. now rewrite Hpaid, fare_paid in Hx.
    + exact (bookTicket_fare_throws rt env req st oid msg Ha Hs Hd Hp Hoid Hx).
  - intros oid x Hoid Hx Hts. unfold supplied, fare_of in *.
    unfold bookTicket_handler, try_catch, bind, lift, ret, throw,
      tickets_insertOne.
    rewrite Ha, Hs, Hd, Hp, Hoid. cbn. rewrite Hx. cbn. rewrite Hts.
    reflexivity.
  - intros oid x ts msg Hoid Hx Hts Herr. unfold supplied, fare_of in *.
    unfold bookTicket_handler, try_catch, bind, lift, ret, throw,
      tickets_insertOne.
    rewrite Ha, Hs, Hd, Hp, Hoid. cbn. rewrite Hx. cbn. rewrite Hts, Herr.
    reflexivity.
Qed.

(** X5. The three lookups only read: whatever they answer, failure
    included, the state after them is the state before. *)
Theorem lookups_read_only env (s : string) st :
  snd (verify_handler env s st) = st /\
  snd (applicant_handler rt env s st) = st /\
  snd (getApplicant_handler env s st) = st.
Proof.
  unfold verify_handler, applicant_handler, getApplicant_handler,
    try_catch, bind, lift, ret, throw, applications_findOne.
  split; [|split].
  - destruct (applications st); [destruct (store_error env)|]; reflexivity.
  - destruct (ObjectId_new rt (JString s)); [|reflexivity].
    destruct (applications st); [destruct (store_error env)|]; reflexivity.
  - destruct (applications st) as [apps|]; [|reflexivity].
    destruct (store_error env); [reflexivity|].
    destruct (find (field_is "passId" s) apps); reflexivity.
Qed.

(** X6. With the applicant collection not connected, or when the store
    rejects the query, each lookup answers status 500 with
    [success: false] and no message. *)
Theorem lookups_unavailable env (s : string) st :
  (applications st = None \/ exists msg, store_error env = Some msg) ->
  fst (verify_handler env s st) = failure_silent "" /\
  fst (applicant_handler rt env s st) = failure_silent "" /\
  fst (getApplicant_handler env s st) = failure_silent "" /\
  status (failure_silent "") = 500 /\
  json (failure_silent "") = JObject [ ("success", JBool false) ].
Proof.
  intros H.
  unfold verify_handler, applicant_handler, getApplicant_handler,
    try_catch, bind, lift, ret, throw, applications_findOne.
  destruct (ObjectId_new rt (JString s));
    destruct H as [-> | [msg ->]];
    try (destruct (applications st)); repeat split.
Qed.

(** X7. The two writes keep to their own collection: [/apply] never
    changes the tickets, [/bookTicket] never changes the applicants. *)
Theorem writes_keep_to_their_collection env req st :
  tickets (snd (apply_handler rt env req st)) = tickets st /\
  applications (snd (bookTicket_handler rt env req st)) = applications st.
Proof.
  split.
  - destruct (apply_cases rt env req st) as [-> | (qr & apps & _ & _ & ->)];
      reflexivity.
  - destruct (bookTicket_cases rt env req st)
      as [-> | (oid & x & ts & _ & _ & _ & ->)]; reflexivity.
Qed.

(** X8. With the applicant store connected and answering, [/verify/:phone]
    answers [success: false] with status 200 when no record has the phone
    in [phone], [whatsapp] or [number], and otherwise [success: true] with
    the [_id] of the first record that has. *)
Theorem verify_found_or_not env phone st apps :
  applications st = Some apps ->
  store_error env = None ->
  ((forall d, In d apps -> phone_query phone d = false) ->
   verify_handler env phone st =
     ({| status := 200; json := JObject [ ("success", JBool false) ] |}, st)) /\
  ((exists d, In d apps /\ phone_query phone d = true) ->
   exists a,
     In a apps /\ phone_query phone a = true /\
     find (phone_query phone) apps = Some a /\
     verify_handler env phone st =
       ({| status := 200;
           json := JObject [ ("success", JBool true); ("id", get a "_id") ] |},
        st)).
Proof.
  intros Happs Herr.
  unfold verify_handler, try_catch, bind, ret, applications_findOne.
  rewrite Happs, Herr. split.
  - intros Hnone. apply find_none_iff in Hnone. now rewrite Hnone.
  - intros (d & Hin & Hd).
    destruct (find (phone_query phone) apps) as [a|] eqn:Hfind.
    + exists a. destruct (find_some _ _ Hfind) as [Ha1 Ha2]. auto.
    + rewrite (find_none _ _ Hfind d Hin) in Hd. discriminate.
Qed.

(** X9. [/applicant/:id] answers status 500 with [success: false] when
    [new ObjectId(id)] throws.  With a well-formed [id] and the store
    answering, it answers status 200 in both cases: [success: false] when
    no record has that [_id] (not 404, unlike the lookup by pass
    identifier), and [success: true] with the whole record otherwise. *)
Theorem applicant_found_or_not env id st :
  (forall msg,
     ObjectId_new rt (JString id) = inr msg ->
     applicant_handler rt env id st = (failure_silent msg, st)) /\
  (forall oid apps,
     ObjectId_new rt (JString id) = inl oid ->
     applications st = Some apps ->
     store_error env = None ->
     ((forall d, In d apps -> id_is oid d = false) ->
      applicant_handler rt env id st =
        ({| status := 200; json := JObject [ ("success", JBool false) ] |}, st)) /\
     (forall a,
        find (id_is oid) apps = Some a ->
        In a apps /\ get a "_id" = JObjectId oid /\
        applicant_handler rt env id st =
          ({| status := 200;
              json := JObject [ ("success", JBool true);
                                ("applicant", JObject a) ] |}, st))).
Proof.
  unfold applicant_handler, try_catch, bind, lift, ret, throw,
    applications_findOne.
  split.
  - intros msg ->. reflexivity.
  - intros oid apps -> Happs Herr. cbn. rewrite Happs, Herr. split.
    + intros Hnone. apply find_none_iff in Hnone. now rewrite Hnone.
    + intros a Hfind. rewrite Hfind.
      destruct (find_some _ _ Hfind) as [Hin Hid].
      split; [exact Hin|]. split; [|reflexivity].
      unfold id_is in Hid.
      destruct (get a "_id"); try discriminate Hid.
      apply N.eqb_eq in Hid. now subst.
Qed.

End Outcomes.

(** ** Beyond the claims: issuing, then looking up *)

Section RoundTrips.

Context (rt : Runtime).

(** The identifier depends on the draw alone. *)
Lemma passId_of_draw env1 env2 :
  random env1 = random env2 ->
  generateUniquePassId rt env1 = generateUniquePassId rt env2.
Proof. unfold generateUniquePassId. now intros ->. Qed.

(** An issuance that stored a record went through every step. *)
Lemma applicant_stored_run env req st d :
  applicant_stored st (snd (apply_handler rt env req st)) d ->
  exists apps qr,
    applications st = Some apps /\
    QRCode_toDataURL rt (generateUniquePassId rt env) = inl qr /\
    store_error env = None /\
    d = applicant_of rt env req qr /\
    apply_handler rt env req st =
      (issued rt env qr,
       {| applications := Some (apps ++ [d]); tickets := tickets st |}).
Proof.
  intros (apps & Happs & Happs').
  destruct (apply_cases rt env req st)
    as [Hsame | (qr & apps' & Hqr & Happs1 & Hst')].
  - rewrite Hsame, Happs in Happs'. injection Happs' as Happs'.
    now apply app_one_neq in Happs'.
  - destruct (store_error env) as [msg|] eqn:Herr.
    + exfalso. revert Happs'.
      unfold apply_handler, try_catch, bind, lift, ret, throw,
        applications_insertOne.
      rewrite Happs, Hqr. cbn. rewrite ?Happs, Herr. cbn. rewrite Happs.
      intros [= Hbad]. now apply app_one_neq in Hbad.
    + exists apps, qr.
      rewrite (apply_success rt env req st apps qr Happs Hqr Herr) in Happs' |- *.
      cbn in Happs'. injection Happs' as Happs'.
      apply app_inv_head in Happs'. injection Happs' as <-.
      repeat split; assumption.
Qed.

(** X10. The record an issuance stores, the response it sends and the
    code it stores agree: the record's [passId], [qrCode] and [_id] are
    the response's [passId], [qrCode] and [id], and the stored code is the
    encoding of that very [passId], so that any decoder which inverts the
    encoder reads the [passId] back from it. *)
Theorem stored_record_matches_response env req st d :
  applicant_stored st (snd (apply_handler rt env req st)) d ->
  let r := fst (apply_handler rt env req st) in
  exists passId qr,
    QRCode_toDataURL rt passId = inl qr /\
    get d "passId" = JString passId /\ answer r "passId" = JString passId /\
    get d "qrCode" = JString qr /\ answer r "qrCode" = JString qr /\
    get d "_id" = answer r "id" /\
    (forall decode : string -> string,
       (forall s q, QRCode_toDataURL rt s = inl q -> decode q = s) ->
       decode qr = passId).
Proof.
  intros Hd r. subst r.
  destruct (applicant_stored_run env req st d Hd)
    as (apps & qr & _ & Hqr & _ & -> & ->).
  exists (generateUniquePassId rt env), qr.
  repeat split; try assumption.
  intros decode Hdecode. now apply Hdecode.
Qed.

(** X11. After an issuance whose resolved phone is the string [p], a
    lookup by [p] finds a record: the stored one matches [p] in its
    [phone] field, and also in [whatsapp] and in [number] where the caller
    left these out.  The lookup answers with the issued [id] when no
    earlier record has [p] in one of the three fields. *)
Theorem issued_phone_resolves env env' req st apps qr p :
  applications st = Some apps ->
  QRCode_toDataURL rt (generateUniquePassId rt env) = inl qr ->
  store_error env = None ->
  store_error env' = None ->
  phoneNumber (body req) = JString p ->
  let st' := snd (apply_handler rt env req st) in
  let d := applicant_of rt env req qr in
  field_is "phone" p d = true /\
  (missing (get (body req) "whatsapp") -> field_is "whatsapp" p d = true) /\
  (missing (get (body req) "number") -> field_is "number" p d = true) /\
  (exists a,
     phone_query p a = true /\
     verify_handler env' p st' =
       ({| status := 200;
           json := JObject [ ("success", JBool true); ("id", get a "_id") ] |},
        st')) /\
  ((forall d', In d' apps -> phone_query p d' = false) ->
   verify_handler env' p st' =
     ({| status := 200;
         json := JObject [ ("success", JBool true);
                           ("id", JObjectId (fresh_id env)) ] |}, st')).
Proof.
  intros Happs Hqr Herr Herr' Hp st' d. subst st' d.
  rewrite (apply_success rt env req st apps qr Happs Hqr Herr).
  cbn [snd].
  assert (Hphone : field_is "phone" p (applicant_of rt env req qr) = true).
  { unfold field_is. rewrite applicant_phone, Hp. cbn. apply String.eqb_refl. }
  assert (Hquery : phone_query p (applicant_of rt env req qr) = true).
  { unfold phone_query. now rewrite Hphone. }
  split; [exact Hphone|]. split; [|split; [|split]].
  - unfold missing, field_is. intros Hw.
    rewrite applicant_whatsapp. unfold js_or. rewrite Hw, Hp. cbn.
    apply String.eqb_refl.
  - unfold missing, field_is. intros Hn.
    rewrite applicant_number. unfold js_or. rewrite Hn, Hp. cbn.
    apply String.eqb_refl.
  - unfold verify_handler, try_catch, bind, ret, applications_findOne.
    cbn [applications]. rewrite Herr', find_app_last.
    destruct (find (phone_query p) apps) as [a|] eqn:Hfind.
    + exists a. split; [|reflexivity]. now destruct (find_some _ _ Hfind).
    + rewrite Hquery. exists (applicant_of rt env req qr).
      split; [exact Hquery | reflexivity].
  - intros Hnone. apply find_none_iff in Hnone.
    unfold verify_handler, try_catch, bind, ret, applications_findOne.
    cbn [applications]. rewrite Herr', find_app_last, Hnone, Hquery.
    reflexivity.
Qed.

(** X12. After an issuance, the lookup by record reference with the [id]
    it returned answers [success: true] with the record that issuance
    stored, which carries the [id] and the [passId] the issuance answered
    with, the [_id] the driver assigned being one no earlier record
    carries. *)
Theorem issued_record_ref_resolves env env' req st apps qr id :
  applications st = Some apps ->
  QRCode_toDataURL rt (generateUniquePassId rt env) = inl qr ->
  store_error env = None ->
  store_error env' = None ->
  ObjectId_new rt (JString id) = inl (fresh_id env) ->
  (forall d, In d apps -> id_is (fresh_id env) d = false) ->
  let r := fst (apply_handler rt env req st) in
  let st' := snd (apply_handler rt env req st) in
  answer r "id" = JObjectId (fresh_id env) /\
  exists a,
    applicant_handler rt env' id st' =
      ({| status := 200;
          json := JObject [ ("success", JBool true);
                            ("applicant", JObject a) ] |},
       st') /\
    applicant_stored st st' a /\
    get a "_id" = answer r "id" /\
    get a "passId" = answer r "passId".
Proof.
  intros Happs Hqr Herr Herr' Hid Hfresh r st'. subst r st'.
  rewrite (apply_success rt env req st apps qr Happs Hqr Herr).
  split; [reflexivity|].
  exists (applicant_of rt env req qr).
  apply find_none_iff in Hfresh.
  split; [|split; [|split; reflexivity]].
  - unfold applicant_handler, try_catch, bind, lift, ret, applications_findOne.
    rewrite Hid. cbn [snd applications]. rewrite Herr', find_app_last, Hfresh.
    unfold id_is at 1. rewrite applicant_id, N.eqb_refl. reflexivity.
  - exists apps. now split.
Qed.

(** X13. Nothing keeps pass identifiers apart: two issuances whose draws
    are equal both go through, and leave two records with the same
    [passId] under the two [_id]s the driver assigned. *)
Theorem equal_draws_share_passId env1 env2 req1 req2 st apps qr :
  applications st = Some apps ->
  QRCode_toDataURL rt (generateUniquePassId rt env1) = inl qr ->
  store_error env1 = None ->
  store_error env2 = None ->
  random env1 = random env2 ->
  let st1 := snd (apply_handler rt env1 req1 st) in
  let d1 := applicant_of rt env1 req1 qr in
  let d2 := applicant_of rt env2 req2 qr in
  apply_handler rt env2 req2 st1 =
    (issued rt env2 qr,
     {| applications := Some (apps ++ [d1; d2]); tickets := tickets st |}) /\
  answer (fst (apply_handler rt env1 req1 st)) "passId" =
    answer (fst (apply_handler rt env2 req2 st1)) "passId" /\
  get d1 "passId" = get d2 "passId" /\
  get d1 "_id" = JObjectId (fresh_id env1) /\
  get d2 "_id" = JObjectId (fresh_id env2).
Proof.
  intros Happs Hqr Herr1 Herr2 Hdraw st1 d1 d2. subst st1 d1 d2.
  pose proof (passId_of_draw env1 env2 Hdraw) as Hpass.
  assert (Hqr2 : QRCode_toDataURL rt (generateUniquePassId rt env2) = inl qr)
    by (rewrite <- Hpass; exact Hqr).
  rewrite (apply_success rt env1 req1 st apps qr Happs Hqr Herr1).
  cbn [fst snd].
  rewrite (apply_success rt env2 req2
             {| applications := Some (apps ++ [applicant_of rt env1 req1 qr]);
                tickets := tickets st |}
             (apps ++ [applicant_of rt env1 req1 qr]) qr eq_refl Hqr2 Herr2).
  cbn [fst snd tickets]. rewrite <- app_assoc. cbn [app].
  split; [reflexivity|]. split; [|split; [|split; reflexivity]].
  - unfold issued. rewrite Hpass. reflexivity.
  - rewrite !applicant_passId. now rewrite Hpass.
Qed.

(** X14. A booking has no key that would make it happen once: a request
    that goes through (the four fields supplied, the identifier and the
    fare computed, the store answering) goes through again when served a
    second time, and the two tickets are written one after the other. *)
Theorem booking_twice_writes_two_tickets env1 env2 req st oid x ts :
  supplied (get (body req) "applicantId") ->
  supplied (get (body req) "source") ->
  supplied (get (body req) "destination") ->
  supplied (get (body req) "paymentType") ->
  ObjectId_new rt (get (body req) "applicantId") = inl oid ->
  fare_of rt req = inl x ->
  tickets st = Some ts ->
  store_error env1 = None ->
  store_error env2 = None ->
  let st1 := snd (bookTicket_handler rt env1 req st) in
  success_of (fst (bookTicket_handler rt env1 req st)) = JBool true /\
  bookTicket_handler rt env2 req st1 =
    (booked (ticket_of env2 req oid x),
     {| applications := applications st;
        tickets := Some (ts ++ [ticket_of env1 req oid x;
                                ticket_of env2 req oid x]) |}).
Proof.
  intros Ha Hs Hd Hp Hoid Hx Hts Herr1 Herr2 st1. subst st1.
  rewrite (bookTicket_success rt env1 req st oid x ts
             Ha Hs Hd Hp Hoid Hx Hts Herr1).
  split; [reflexivity|]. cbn [snd].
  rewrite (bookTicket_success rt env2 req
             {| applications := applications st;
                tickets := Some (ts ++ [ticket_of env1 req oid x]) |}
             oid x (ts ++ [ticket_of env1 req oid x])
             Ha Hs Hd Hp Hoid Hx eq_refl Herr2).
  cbn [applications]. rewrite <- app_assoc. reflexivity.
Qed.

End RoundTrips.

(** ** Beyond the claims: any sequence of requests *)

(** For a draw in the range, the identifier is "TSRTC-" and the digits of
    a number that the draw alone decides. *)
Lemma passId_digits (env : Env) :
  unit_interval (random env) = true ->
  exists n : N,
    (10000000 <= n <= 99999999)%N /\
    forall rt, generateUniquePassId rt env = ("TSRTC-" ++ decimal n)%string.
Proof.
  intros Hr.
  destruct (randomNum_range (random env) Hr) as (n & Hn & Hint).
  exists (Z.to_N n). split; [lia|].
  intros rt. unfold generateUniquePassId.
  rewrite (NumberToString_integer rt _ n Hint); [reflexivity|].
  change (10 ^ 21)%Z with 1000000000000000000000%Z. lia.
Qed.

(** X15. For a draw in the range of [Math.random()], the identifier has
    14 characters, and is the same whatever the engine does to print
    numbers that are not whole: the number drawn is always whole. *)
Theorem passId_shape_is_fixed (rt rt' : Runtime) (env : Env) :
  unit_interval (random env) = true ->
  String.length (generateUniquePassId rt env) = 14 /\
  generateUniquePassId rt' env = generateUniquePassId rt env.
Proof.
  intros Hr. destruct (passId_digits env Hr) as (n & Hn & Hid).
  rewrite (Hid rt), (Hid rt'). split; [|reflexivity].
  destruct (Decimal.decimal_eight n Hn) as [Hlen _].
  cbn [String.append String.length]. now rewrite Hlen.
Qed.

Section Sequences.

Context (rt : Runtime).

Lemma grown_refl c : grown c c.
Proof. destruct c as [l|]; cbn; [|exact I]. exists []. now rewrite app_nil_r. Qed.

Lemma grown_trans c1 c2 c3 : grown c1 c2 -> grown c2 c3 -> grown c1 c3.
Proof.
  destruct c1 as [l1|], c2 as [l2|], c3 as [l3|]; cbn; try tauto.
  intros [a1 ->] [a2 ->]. exists (a1 ++ a2). now rewrite app_assoc.
Qed.

Lemma extends_refl st : extends st st.
Proof. split; apply grown_refl. Qed.

Lemma extends_trans st1 st2 st3 :
  extends st1 st2 -> extends st2 st3 -> extends st1 st3.
Proof.
  intros [Ha Ht] [Ha' Ht']. split; eapply grown_trans; eassumption.
Qed.

(** What a request does to the state: nothing, or one record more. *)
Lemma route_cases c st :
  snd (route rt c st) = st \/
  (exists env req qr apps,
     c = PostApply env req /\ applications st = Some apps /\
     snd (route rt c st) =
       {| applications := Some (apps ++ [applicant_of rt env req qr]);
          tickets := tickets st |}) \/
  (exists env req oid x ts,
     c = PostBookTicket env req /\ tickets st = Some ts /\
     supplied (get (body req) "source") /\
     supplied (get (body req) "destination") /\
     supplied (get (body req) "paymentType") /\
     fare_of rt req = inl x /\
     snd (route rt c st) =
       {| applications := applications st;
          tickets := Some (ts ++ [ticket_of env req oid x]) |}).
Proof.
  destruct c as [env req|env phone|env id|env passId|env req]; cbn [route].
  - destruct (apply_cases rt env req st) as [H | (qr & apps & _ & Happs & H)];
      [now left|].
    right. left. now exists env, req, qr, apps.
  - left. unfold verify_handler, try_catch, bind, ret, applications_findOne.
    destruct (applications st); [destruct (store_error env)|]; reflexivity.
  - left. unfold applicant_handler, try_catch, bind, lift, ret, throw,
      applications_findOne.
    destruct (ObjectId_new rt (JString id)); [|reflexivity].
    destruct (applications st); [destruct (store_error env)|]; reflexivity.
  - left. unfold getApplicant_handler, try_catch, bind, ret,
      applications_findOne.
    destruct (applications st) as [apps|]; [|reflexivity].
    destruct (store_error env); [reflexivity|].
    destruct (find (field_is "passId" passId) apps); reflexivity.
  - destruct (truthy (get (body req) "applicantId")
              && truthy (get (body req) "source")
              && truthy (get (body req) "destination")
              && truthy (get (body req) "paymentType")) eqn:Hall.
    + apply andb_true_iff in Hall. destruct Hall as [Hall Hp].
      apply andb_true_iff in Hall. destruct Hall as [Hall Hd].
      apply andb_true_iff in Hall. destruct Hall as [_ Hs].
      destruct (bookTicket_cases rt env req st)
        as [H | (oid & x & ts & _ & Hx & Hts & H)]; [now left|].
      right. right. now exists env, req, oid, x, ts.
    + left. now rewrite (bookTicket_rejects rt env req st Hall).
Qed.

Lemma route_extends c st : extends st (snd (route rt c st)).
Proof.
  destruct (route_cases c st)
    as [-> | [(env & req & qr & apps & _ & Happs & ->)
             | (env & req & oid & x & ts & _ & Hts & _ & _ & _ & _ & ->)]].
  - apply extends_refl.
  - split; cbn; [|apply grown_refl]. rewrite Happs. cbn. now eexists.
  - split; cbn; [apply grown_refl|]. rewrite Hts. cbn. now eexists.
Qed.

Lemma serve_extends cs : forall st, extends st (serve rt cs st).
Proof.
  induction cs as [|c cs IH]; intros st; cbn [serve].
  - apply extends_refl.
  - eapply extends_trans; [apply route_extends | apply IH].
Qed.

(** X16. No request removes or alters a stored record, or connects or
    disconnects a collection: after any sequence of requests each
    collection is what it was, with the new records at its end. *)
Theorem serve_append_only cs st :
  grown (applications st) (applications (serve rt cs st)) /\
  grown (tickets st) (tickets (serve rt cs st)).
Proof. exact (serve_extends cs st). Qed.

Lemma find_app_first {A} (f : A -> bool) (l l' : list A) (a : A) :
  find f l = Some a -> find f (l ++ l') = Some a.
Proof.
  induction l as [|x l IH]; cbn; [discriminate|].
  destruct (f x); [trivial | exact IH].
Qed.

(** X17. A lookup that found a record keeps finding that same record:
    after any sequence of further requests, the lookup by pass identifier
    answers with the same record, and the lookup by phone with the same
    [id], as long as the store answers. *)
Theorem lookups_stable env env' (s : string) cs st :
  store_error env' = None ->
  (forall a,
     fst (getApplicant_handler env s st) =
       {| status := 200; json := JObject a |} ->
     fst (getApplicant_handler env' s (serve rt cs st)) =
       {| status := 200; json := JObject a |}) /\
  (success_of (fst (verify_handler env s st)) = JBool true ->
   fst (verify_handler env' s (serve rt cs st)) =
     fst (verify_handler env s st)).
Proof.
  intros Herr'.
  destruct (serve_extends cs st) as [Hgrown _].
  unfold getApplicant_handler, verify_handler, try_catch, bind, ret,
    applications_findOne, success_of, answer.
  destruct (applications st) as [apps|];
    destruct (applications (serve rt cs st)) as [apps'|];
    cbn in Hgrown; try contradiction.
  - destruct Hgrown as [added ->]. rewrite Herr'.
    destruct (store_error env); split; cbn; try discriminate.
    + intros a.
      destruct (find (field_is "passId" s) apps) as [a'|] eqn:Hfind;
        cbn; [|discriminate].
      intros [= ->]. now rewrite (find_app_first _ _ added _ Hfind).
    + destruct (find (phone_query s) apps) as [a'|] eqn:Hfind;
        cbn; [|discriminate].
      intros _. now rewrite (find_app_first _ _ added _ Hfind).
  - split; cbn; [intros a|]; discriminate.
Qed.

Lemma issued_record_applicant_of env req qr :
  unit_interval (random env) = true ->
  issued_record (applicant_of rt env req qr).
Proof.
  intros Hr. destruct (passId_digits env Hr) as (n & Hn & Hid).
  unfold issued_record. rewrite applicant_passId, (Hid rt).
  split; [now exists n|].
  split; [now exists qr|].
  split; [reflexivity|]. split; [reflexivity|].
  split; [now exists (now env) | now exists (fresh_id env)].
Qed.

Lemma booked_record_ticket_of env req oid x :
  supplied (get (body req) "source") ->
  supplied (get (body req) "destination") ->
  supplied (get (body req) "paymentType") ->
  fare_of rt req = inl x ->
  booked_record (ticket_of env req oid x).
Proof.
  intros Hs Hd Hp Hx. unfold booked_record. rewrite ticket_amount.
  split; [now exists oid|].
  split; [exact Hs|]. split; [exact Hd|]. split; [exact Hp|].
  split; [|split; [|split]].
  - now exists x.
  - intros Hne. unfold fare_of in Hx.
    change (get (ticket_of env req oid x) "paymentType")
      with (get (body req) "paymentType") in Hne.
    rewrite (fare_unpaid rt _ _ Hne) in Hx.
    assert (E : x = of_Z 0) by congruence.
    rewrite E. reflexivity.
  - now exists (now env).
  - now exists (fresh_id env).
Qed.

Lemma route_keeps_well_formed c st :
  valid_draws [c] ->
  records_well_formed st -> records_well_formed (snd (route rt c st)).
Proof.
  intros Hc [Happ Htick].
  destruct (route_cases c st)
    as [-> | [(env & req & qr & apps & -> & Happs & ->)
             | (env & req & oid & x & ts & -> & Hts & Hs & Hd & Hp & Hx & ->)]].
  - now split.
  - split; cbn; [|exact Htick]. rewrite Happs in Happ. cbn in Happ.
    apply Forall_app. split; [exact Happ|].
    constructor; [|constructor].
    apply issued_record_applicant_of. now destruct Hc.
  - split; cbn; [exact Happ|]. rewrite Hts in Htick. cbn in Htick.
    apply Forall_app. split; [exact Htick|].
    constructor; [|constructor].
    now apply booked_record_ticket_of.
Qed.

(** X18. As long as every issuance draws in the range of [Math.random()],
    a store whose records are well formed stays so under any sequence of
    requests: every applicant record has a pass identifier "TSRTC-" plus
    eight digits, a code, the fixed payment and delivery modes, a creation
    date and an [_id]; every ticket has an identifier as [applicantId],
    non-empty [source], [destination] and [paymentType], a number as
    [amount], which is 0 unless the payment type is "PAID", a booking date
    and an [_id]. *)
Theorem serve_keeps_records_well_formed cs : forall st,
  valid_draws cs ->
  records_well_formed st ->
  records_well_formed (serve rt cs st).
Proof.
  induction cs as [|c cs IH]; intros st Hcs Hst; cbn [serve]; [exact Hst|].
  apply IH.
  - destruct c; cbn in Hcs; tauto.
  - apply route_keeps_well_formed; [|exact Hst].
    destruct c; cbn in Hcs |- *; tauto.
Qed.

End Sequences.

(** ** Beyond the claims: the names of uploaded files *)

Module Uploads.

(** Every number reads back from its digits. *)
Lemma numeral_from_digits fuel : forall n acc,
  (n < 2 ^ N.of_nat fuel)%N ->
  numeral_from (digits_from fuel n acc) 0 = numeral_from acc n.
Proof.
  induction fuel as [|fuel IH]; intros n acc Hn.
  - cbn in Hn. assert (n = 0%N) by lia. now subst.
  - cbn [digits_from].
    pose proof (N.mod_lt n 10 ltac:(lia)) as Hmod.
    pose proof (N.div_mod n 10 ltac:(lia)) as Hdiv.
    destruct (n / 10 =? 0)%N eqn:Hq.
    + apply N.eqb_eq in Hq.
      rewrite Decimal.numeral_from_digit by exact Hmod.
      f_equal. rewrite Hq in Hdiv. lia.
    + rewrite IH.
      * rewrite Decimal.numeral_from_digit by exact Hmod.
        f_equal. set (q := (n / 10)%N) in *. set (r := (n mod 10)%N) in *.
        clearbody q r. lia.
      * rewrite Nat2N.inj_succ, N.pow_succ_r' in Hn.
        apply N.Div0.div_lt_upper_bound.
        set (P := (2 ^ N.of_nat fuel)%N) in *. clearbody P. lia.
Qed.

Lemma numeral_from_decimal n : numeral_from (decimal n) 0 = Some n.
Proof.
  unfold decimal. rewrite numeral_from_digits; [reflexivity|].
  rewrite Nat2N.inj_succ, N2Nat.id.
  destruct n as [|p]; [reflexivity|].
  apply N.log2_spec. lia.
Qed.

Lemma decimal_injective n m : decimal n = decimal m -> n = m.
Proof.
  intros H. pose proof (numeral_from_decimal n) as Hn.
  rewrite H, numeral_from_decimal in Hn. congruence.
Qed.

Lemma decimal_all_digits n : all_digits (decimal n) = true.
Proof. apply Decimal.digits_from_all_digits. reflexivity. Qed.

(** Digits end where the first hyphen stands. *)
Lemma digits_then_hyphen (d1 d2 s1 s2 : string) :
  all_digits d1 = true -> all_digits d2 = true ->
  (d1 ++ "-" ++ s1)%string = (d2 ++ "-" ++ s2)%string ->
  d1 = d2 /\ s1 = s2.
Proof.
  revert d2. induction d1 as [|c d1 IH]; intros [|c' d2] H1 H2 H;
    cbn [String.append] in H.
  - injection H as H. now split.
  - injection H as Hc _. subst c'. cbn in H2. discriminate H2.
  - injection H as Hc _. subst c. cbn in H1. discriminate H1.
  - injection H as -> H. cbn [all_digits] in H1, H2.
    apply andb_true_iff in H1. destruct H1 as [_ H1].
    apply andb_true_iff in H2. destruct H2 as [_ H2].
    destruct (IH d2 H1 H2 H) as [-> ->]. now split.
Qed.

(** A whole number below 2^53 is a double, and prints as its digits. *)
Lemma of_Z_integer (t : Z) :
  (0 < t < 2 ^ 53)%Z -> integer_value (of_Z t) = Some t.
Proof.
  intros Ht. destruct t as [|tp|tp]; try lia.
  unfold of_Z. cbn [binary_normalize].
  pose proof (Binary64.binary_round_units tp 0) as Hround.
  cbn zeta in Hround. cbn [Zdigits2] in Hround.
  rewrite Binary64.fexp_eq in Hround.
  assert (Hd : (Zpos (digits2_pos tp) <= 53)%Z)
    by (apply Binary64.digits2_le; lia).
  assert (Hd0 : (0 < Zpos (digits2_pos tp))%Z) by lia.
  set (d := Zpos (digits2_pos tp)) in *. clearbody d.
  replace (Z.max (d + 0 - 53) (-1074))%Z with (d - 53)%Z in Hround by lia.
  destruct (Hround (d - 53)%Z) as (m2 & Hu & _ & Hlow & Hup); try lia.
  rewrite Z.sub_diag, Z.pow_0_r in Hlow, Hup.
  specialize (Hlow (Zpos tp * 2 ^ (0 - (d - 53)))%Z ltac:(lia)).
  specialize (Hup (Zpos tp * 2 ^ (0 - (d - 53)))%Z ltac:(lia)).
  assert (Hm2 : m2 = (Zpos tp * 2 ^ (- (d - 53)))%Z)
    by (replace (- (d - 53))%Z with (0 - (d - 53))%Z by lia; lia).
  rewrite Hm2 in Hu.
  assert (Hne : (2 ^ (- (d - 53)) <> 0)%Z)
    by (apply Z.neq_sym, Z.lt_neq, Binary64.pow2_pos; lia).
  rewrite (Binary64.integer_of_units _ _ _ Hu); [| lia | now apply Z.mod_mul].
  now rewrite Z.div_mul.
Qed.

Lemma storage_filename_digits rt (t : Z) name :
  (0 < t < 2 ^ 53)%Z ->
  storage_filename rt t name = (decimal (Z.to_N t) ++ "-" ++ name)%string.
Proof.
  intros Ht. unfold storage_filename.
  rewrite (NumberToString_integer rt _ t (of_Z_integer t Ht)); [reflexivity|].
  change (2 ^ 53)%Z with 9007199254740992%Z in Ht.
  change (10 ^ 21)%Z with 1000000000000000000000%Z. lia.
Qed.

(** X19. The name multer stores a file under is the time in milliseconds,
    a hyphen, and the original name as the client sent it.  Two uploads
    get the same stored name only at the same millisecond with the same
    original name: the time and the original name can be read back from
    the stored name. *)
Theorem storage_filename_injective rt (t1 t2 : Z) (name1 name2 : string) :
  (0 < t1 < 2 ^ 53)%Z ->
  (0 < t2 < 2 ^ 53)%Z ->
  storage_filename rt t1 name1 = storage_filename rt t2 name2 ->
  t1 = t2 /\ name1 = name2.
Proof.
  intros H1 H2 H.
  rewrite !storage_filename_digits in H by assumption.
  apply digits_then_hyphen in H; try apply decimal_all_digits.
  destruct H as [Hd ->]. apply decimal_injective in Hd.
  split; [lia | reflexivity].
Qed.

End Uploads.

(** ** The properties beyond the claims at concrete requests *)

Lemma apply_failures_witness :
  apply_handler Sample.rt (Sample.env Sample.half 1) Cases.with_phone
    Cases.disconnected =
    ({| status := 500;
        json := JObject [ ("error", JString "DB not connected") ] |},
     Cases.disconnected) /\
  apply_handler Cases.no_encoder (Sample.env Sample.half 1) Cases.with_phone
    Sample.connected = (failure "encoding failed", Sample.connected) /\
  apply_handler Sample.rt (Cases.rejecting 1) Cases.with_phone
    Sample.connected = (failure "connection closed", Sample.connected).
Proof.
  split; [|split].
  - apply (proj1 (apply_failures Sample.rt (Sample.env Sample.half 1)
                    Cases.with_phone Cases.disconnected)).
    reflexivity.
  - apply (proj1 (proj2 (apply_failures Cases.no_encoder
                           (Sample.env Sample.half 1) Cases.with_phone
                           Sample.connected)) []); reflexivity.
  - apply (proj2 (proj2 (apply_failures Sample.rt (Cases.rejecting 1)
                           Cases.with_phone Sample.connected))
             [] Cases.qr_55); reflexivity.
Defined.

Lemma bookTicket_failures_witness :
  bookTicket_handler Sample.rt (Sample.env Sample.half 7)
    (Sample.booking (JString "xyz") (JString "PAID") (JString "50"))
    Sample.connected = (failure Sample.invalid_id, Sample.connected) /\
  bookTicket_handler Sample.rt (Sample.env Sample.half 7)
    (Sample.booking (JString Sample.an_id) (JString "PAID") Sample.no_number)
    Cases.disconnected = (failure Sample.not_primitive, Cases.disconnected) /\
  bookTicket_handler Sample.rt (Sample.env Sample.half 7) Cases.paid_50
    Cases.disconnected =
    (failure "Cannot read properties of undefined (reading 'insertOne')",
     Cases.disconnected) /\
  bookTicket_handler Sample.rt (Cases.rejecting 7) Cases.paid_50
    Sample.connected = (failure "connection closed", Sample.connected).
Proof.
  split; [|split; [|split]].
  - exact (proj1 (bookTicket_failures Sample.rt (Sample.env Sample.half 7)
                    (Sample.booking (JString "xyz") (JString "PAID")
                       (JString "50"))
                    Sample.connected eq_refl eq_refl eq_refl eq_refl)
             Sample.invalid_id eq_refl).
  - exact (proj2 (proj2
             (proj1 (proj2 (bookTicket_failures Sample.rt
                              (Sample.env Sample.half 7)
                              (Sample.booking (JString Sample.an_id)
                                 (JString "PAID") Sample.no_number)
                              Cases.disconnected
                              eq_refl eq_refl eq_refl eq_refl))
                Sample.an_oid Sample.not_primitive eq_refl eq_refl))).
  - exact (proj1 (proj2 (proj2 (bookTicket_failures Sample.rt
                                  (Sample.env Sample.half 7) Cases.paid_50
                                  Cases.disconnected
                                  eq_refl eq_refl eq_refl eq_refl)))
             Sample.an_oid (of_Z 50) eq_refl eq_refl eq_refl).
  - exact (proj2 (proj2 (proj2 (bookTicket_failures Sample.rt
                                  (Cases.rejecting 7) Cases.paid_50
                                  Sample.connected
                                  eq_refl eq_refl eq_refl eq_refl)))
             Sample.an_oid (of_Z 50) [] "connection closed"
             eq_refl eq_refl eq_refl eq_refl).
Defined.

Lemma lookups_unavailable_witness :
  fst (verify_handler (Sample.env Sample.half 2) "9000000001"
         Cases.disconnected) = failure_silent "" /\
  fst (getApplicant_handler (Cases.rejecting 2) "TSRTC-55000000"
         Sample.issued_once) = failure_silent "".
Proof.
  split.
  - apply (lookups_unavailable Sample.rt (Sample.env Sample.half 2)
             "9000000001" Cases.disconnected).
    left. reflexivity.
  - apply (lookups_unavailable Sample.rt (Cases.rejecting 2)
             "TSRTC-55000000" Sample.issued_once).
    right. now exists "connection closed".
Defined.

Lemma verify_found_or_not_witness :
  verify_handler (Sample.env Sample.half 2) "9000000002"
    Cases.issued_with_phone =
    ({| status := 200; json := JObject [ ("success", JBool false) ] |},
     Cases.issued_with_phone) /\
  exists a,
    get a "phone" = JString "9000000001" /\
    verify_handler (Sample.env Sample.half 2) "9000000001"
      Cases.issued_with_phone =
      ({| status := 200;
          json := JObject [ ("success", JBool true); ("id", get a "_id") ] |},
       Cases.issued_with_phone).
Proof.
  pose (record := applicant_of Sample.rt (Sample.env Sample.half 1)
                    Cases.with_phone Cases.qr_55).
  split.
  - apply (proj1 (verify_found_or_not (Sample.env Sample.half 2)
                    "9000000002" Cases.issued_with_phone [record]
                    eq_refl eq_refl)).
    intros d [<- | []]. reflexivity.
  - destruct (proj2 (verify_found_or_not (Sample.env Sample.half 2)
                       "9000000001" Cases.issued_with_phone [record]
                       eq_refl eq_refl))
      as (a & Hin & _ & _ & Hrun).
    + exists record. split; [now left | reflexivity].
    + exists a. split; [|exact Hrun].
      destruct Hin as [<- | []]. reflexivity.
Defined.

Lemma applicant_found_or_not_witness :
  applicant_handler Sample.rt (Sample.env Sample.half 2) "xyz"
    Sample.issued_once = (failure_silent Sample.invalid_id, Sample.issued_once) /\
  applicant_handler Sample.rt (Sample.env Sample.half 2) Cases.id_2
    Sample.issued_once =
    ({| status := 200; json := JObject [ ("success", JBool false) ] |},
     Sample.issued_once) /\
  exists a,
    get a "passId" = JString "TSRTC-55000000" /\
    applicant_handler Sample.rt (Sample.env Sample.half 2) Cases.id_1
      Sample.issued_once =
      ({| status := 200;
          json := JObject [ ("success", JBool true);
                            ("applicant", JObject a) ] |},
       Sample.issued_once).
Proof.
  pose (record := applicant_of Sample.rt (Sample.env Sample.half 1)
                    (Sample.application []) Cases.qr_55).
  split; [|split].
  - apply (proj1 (applicant_found_or_not Sample.rt (Sample.env Sample.half 2)
                    "xyz" Sample.issued_once)).
    reflexivity.
  - apply (proj1 (proj2 (applicant_found_or_not Sample.rt
                           (Sample.env Sample.half 2) Cases.id_2
                           Sample.issued_once)
                    2%N [record] eq_refl eq_refl eq_refl)).
    intros d [<- | []]. reflexivity.
  - exists record. split; [reflexivity|].
    apply (proj2 (proj2 (applicant_found_or_not Sample.rt
                           (Sample.env Sample.half 2) Cases.id_1
                           Sample.issued_once)
                    1%N [record] eq_refl eq_refl eq_refl) record).
    reflexivity.
Defined.

Lemma stored_record_matches_response_witness :
  exists passId qr,
    QRCode_toDataURL Sample.rt passId = inl qr /\
    get (applicant_of Sample.rt (Sample.env Sample.half 1) Cases.with_phone
           Cases.qr_55) "qrCode" = JString qr /\
    answer (fst (apply_handler Sample.rt (Sample.env Sample.half 1)
                   Cases.with_phone Sample.connected)) "passId" =
      JString passId.
Proof.
  destruct (stored_record_matches_response Sample.rt
              (Sample.env Sample.half 1) Cases.with_phone Sample.connected
              (applicant_of Sample.rt (Sample.env Sample.half 1)
                 Cases.with_phone Cases.qr_55))
    as (passId & qr & Hqr & _ & Hpass & Hcode & _).
  - exists []. split; reflexivity.
  - exists passId, qr. auto.
Defined.

Lemma issued_phone_resolves_witness :
  field_is "whatsapp" "9000000001"
    (applicant_of Sample.rt (Sample.env Sample.half 1) Cases.with_phone
       Cases.qr_55) = true /\
  verify_handler (Sample.env Sample.half 2) "9000000001"
    Cases.issued_with_phone =
    ({| status := 200;
        json := JObject [ ("success", JBool true); ("id", JObjectId 1%N) ] |},
     Cases.issued_with_phone).
Proof.
  destruct (issued_phone_resolves Sample.rt (Sample.env Sample.half 1)
              (Sample.env Sample.half 2) Cases.with_phone Sample.connected
              [] Cases.qr_55 "9000000001"
              eq_refl eq_refl eq_refl eq_refl eq_refl)
    as (_ & Hwhatsapp & _ & _ & Hfresh).
  split.
  - apply Hwhatsapp. reflexivity.
  - apply Hfresh. intros d [].
Defined.

Lemma issued_record_ref_resolves_witness :
  exists a,
    applicant_handler Sample.rt (Sample.env Sample.half 2) Cases.id_1
      Sample.issued_once =
      ({| status := 200;
          json := JObject [ ("success", JBool true);
                            ("applicant", JObject a) ] |},
       Sample.issued_once) /\
    get a "_id" = JObjectId 1%N /\
    get a "passId" = JString "TSRTC-55000000".
Proof.
  destruct (issued_record_ref_resolves Sample.rt (Sample.env Sample.half 1)
              (Sample.env Sample.half 2) (Sample.application [])
              Sample.connected [] Cases.qr_55 Cases.id_1
              eq_refl eq_refl eq_refl eq_refl eq_refl
              (fun d (H : In d []) => match H with end))
    as (_ & a & Hrun & _ & Hid & Hpass).
  exists a. split; [exact Hrun|]. split; [exact Hid | exact Hpass].
Defined.

Lemma equal_draws_share_passId_witness :
  get (applicant_of Sample.rt (Sample.env Sample.half 1) Cases.with_phone
         Cases.qr_55) "passId" =
  get (applicant_of Sample.rt (Sample.env Sample.half 2) (Sample.application [])
         Cases.qr_55) "passId".
Proof.
  destruct (equal_draws_share_passId Sample.rt (Sample.env Sample.half 1)
              (Sample.env Sample.half 2) Cases.with_phone
              (Sample.application []) Sample.connected [] Cases.qr_55
              eq_refl eq_refl eq_refl eq_refl eq_refl)
    as (_ & _ & Hsame & _).
  exact Hsame.
Defined.

Lemma booking_twice_writes_two_tickets_witness :
  tickets
    (snd (bookTicket_handler Sample.rt (Sample.env Sample.half 8) Cases.paid_50
            (snd (bookTicket_handler Sample.rt (Sample.env Sample.half 7)
                    Cases.paid_50 Sample.connected)))) =
  Some [ ticket_of (Sample.env Sample.half 7) Cases.paid_50
           Sample.an_oid (of_Z 50);
         ticket_of (Sample.env Sample.half 8) Cases.paid_50
           Sample.an_oid (of_Z 50) ].
Proof.
  destruct (booking_twice_writes_two_tickets Sample.rt
              (Sample.env Sample.half 7) (Sample.env Sample.half 8)
              Cases.paid_50 Sample.connected Sample.an_oid (of_Z 50) []
              eq_refl eq_refl eq_refl eq_refl eq_refl eq_refl eq_refl eq_refl
              eq_refl)
    as [_ Hrun].
  rewrite Hrun. reflexivity.
Defined.

Lemma passId_shape_is_fixed_witness :
  String.length (generateUniquePassId Sample.rt (Sample.env Sample.half 1)) = 14 /\
  generateUniquePassId Cases.no_encoder (Sample.env Sample.half 1) =
    generateUniquePassId Sample.rt (Sample.env Sample.half 1).
Proof.
  apply (passId_shape_is_fixed Sample.rt Cases.no_encoder
           (Sample.env Sample.half 1)).
  reflexivity.
Defined.

Lemma lookups_stable_witness :
  fst (getApplicant_handler (Sample.env Sample.half 9) "TSRTC-55000000"
         (serve Sample.rt Cases.two_more Sample.issued_once)) =
    {| status := 200;
       json := JObject (applicant_of Sample.rt (Sample.env Sample.half 1)
                          (Sample.application []) Cases.qr_55) |}.
Proof.
  apply (proj1 (lookups_stable Sample.rt (Sample.env Sample.half 2)
                  (Sample.env Sample.half 9) "TSRTC-55000000" Cases.two_more
                  Sample.issued_once eq_refl)).
  reflexivity.
Defined.

Lemma serve_keeps_records_well_formed_witness :
  records_well_formed (serve Sample.rt Cases.two_more Sample.connected).
Proof.
  apply (serve_keeps_records_well_formed Sample.rt Cases.two_more
           Sample.connected).
  - split; [reflexivity | exact I].
  - split; constructor.
Defined.

Lemma storage_filename_injective_witness :
  1700000000000%Z = 1700000000000%Z /\ "photo.png" = "photo.png".
Proof.
  apply (Uploads.storage_filename_injective Sample.rt 1700000000000
           1700000000000 "photo.png" "photo.png").
  - split; reflexivity.
  - split; reflexivity.
  - reflexivity.
Defined.

Example storage_filename_sample :
  storage_filename Sample.rt 1700000000000 "photo.png" =
    "1700000000000-photo.png".
Proof. reflexivity. Qed.
